(** * httpie.output.writer: output-stream selection, production and writing

    A shallow embedding of [httpie/output/writer.py].  Python values are
    modelled as the module uses them: [bytes] as lists of bytes, flags as
    booleans, option names as strings, file objects as an interface with a
    log of the calls made on them.  Exceptions and the side effects on the two
    sinks ([env.stdout], [env.stderr]) are threaded through a small state and
    error monad. *)

From Stdlib Require Import List String Ascii Bool ZArith NArith Lia.
From Stdlib.Strings Require Import Byte.
Import ListNotations.
Open Scope string_scope.
Open Scope list_scope.

(** ** Python values *)

(** [bytes]: an immutable sequence of bytes. *)
Definition bytes := list byte.

(** [str] holding decoded text: a sequence of code points. *)
Definition text := list N.

(** A codec, as looked up by [bytes.decode(encoding)]; [None] stands for
    [UnicodeDecodeError] / [UnicodeEncodeError] under the strict handler. *)
Record Codec := {
  decode : bytes -> option text;
  encode : text -> option bytes
}.

(** The exceptions the module can meet.  [IOError] carries [e.errno], which is
    [None] for an [IOError] built without one. *)
Inductive exn :=
| IOError (errno : option Z)
| AttributeError
| TypeError
| UnicodeDecodeError.

(** [errno.EPIPE] *)
Definition EPIPE : Z := 32.

(** ** File objects *)

(** The object a call lands on: [outfile] itself (text mode) or its
    underlying [outfile.buffer] (byte mode). *)
Inductive handle := Outfile | Buffer.

Inductive payload :=
| Bytes (b : bytes)
| Text (s : text).

(** One call on an output file. *)
Inductive sink_op :=
| Write (h : handle) (p : payload)
| Flush.

(** A file object: whether it has a [buffer] attribute, its declared
    [encoding], and which exception (if any) a call raises, given the calls
    that succeeded on it so far. *)
Record File := {
  file_has_buffer : bool;
  file_encoding : Codec;
  file_fault : list sink_op -> sink_op -> option exn
}.

(** ** The world: the calls that succeeded on each sink, oldest first *)
Record World := {
  stdout_ops : list sink_op;
  stderr_ops : list sink_op
}.

(** ** State and error monad *)

Inductive result (A : Type) :=
| Ok (a : A)
| Raise (e : exn).
Arguments Ok {A} a.
Arguments Raise {A} e.

Definition M (A : Type) := World -> World * result A.

Definition ret {A} (a : A) : M A := fun w => (w, Ok a).

Definition raise {A} (e : exn) : M A := fun w => (w, Raise e).

Definition bind {A B} (m : M A) (k : A -> M B) : M B :=
  fun w =>
    match m w with
    | (w', Ok a) => k a w'
    | (w', Raise e) => (w', Raise e)
    end.

Notation "x <- m ;; k" := (bind m (fun x => k))
  (at level 61, m at next level, right associativity).
Notation "m ;; k" := (bind m (fun _ => k))
  (at level 61, right associativity).

(** A call on [env.stdout] (or its buffer): it raises what the file says, and
    is logged otherwise. *)
Definition call_stdout (f : File) (op : sink_op) : M unit :=
  fun w =>
    match file_fault f (stdout_ops w) op with
    | Some e => (w, Raise e)
    | None =>
        ({| stdout_ops := stdout_ops w ++ [op]; stderr_ops := stderr_ops w |},
         Ok tt)
    end.

(** [when b m]: [if b: m] *)
Definition when (b : bool) (m : M unit) : M unit :=
  if b then m else ret tt.

(** ** Streams *)

(** A generator of chunks, run to its end: the chunks it yields, in order, and
    the exception that ends it, if one does. *)
Record Stream := {
  chunks : list bytes;
  stream_exn : option exn
}.

(** [for chunk in stream: body(chunk)] *)
Fixpoint for_each (body : bytes -> M unit) (cs : list bytes) : M unit :=
  match cs with
  | [] => ret tt
  | c :: cs' => body c ;; for_each body cs'
  end.

Definition for_in (s : Stream) (body : bytes -> M unit) : M unit :=
  for_each body (chunks s) ;;
  match stream_exn s with
  | Some e => raise e
  | None => ret tt
  end.

(** ** Environment, arguments and messages *)

(** [stdout_is_stderr] says that [env.stdout] and [env.stderr] are one and
    the same object, as with [--download], where [env.stdout] is set to
    [stderr]; that object is then described by [stdout], its calls are logged
    in [stdout_ops], and [stderr] is not looked at. *)
Record Environment := {
  stdout : File;
  stdout_isatty : bool;
  is_windows : bool;
  stderr : File;
  stdout_is_stderr : bool
}.

(** [env.stderr.write(s)]: a call on the text layer of the object behind
    [env.stderr], which raises what that file says and is logged otherwise. *)
Definition stderr_write (env : Environment) (s : text) : M unit :=
  if stdout_is_stderr env then
    call_stdout (stdout env) (Write Outfile (Text s))
  else
    fun w =>
      match file_fault (stderr env) (stderr_ops w) (Write Outfile (Text s))
      with
      | Some e => (w, Raise e)
      | None =>
          ({| stdout_ops := stdout_ops w;
              stderr_ops := stderr_ops w ++ [Write Outfile (Text s)] |},
           Ok tt)
      end.

(** The fields of [argparse.Namespace] the module reads. *)
Record Namespace := {
  prettify : list string;
  stream : bool;
  output_format_form : string;
  style : string;
  json : bool;
  format_options : list (string * string);
  debug : bool;
  traceback : bool
}.

(** What the module reads of a [requests] message; [is_body_upload_chunk] is
    [None] when the object has no such attribute. *)
Record RawMessage := {
  headers : list (string * string);
  body : bytes;
  is_body_upload_chunk : option bool
}.

(** [Union[requests.PreparedRequest, requests.Response]] *)
Inductive RequestsMessage :=
| PreparedRequest (m : RawMessage)
| Response (m : RawMessage).

Definition raw (r : RequestsMessage) : RawMessage :=
  match r with
  | PreparedRequest m => m
  | Response m => m
  end.

(** [getattr(obj, name, default)] *)
Definition getattr {A} (attr : option A) (default : A) : A :=
  match attr with
  | Some a => a
  | None => default
  end.

(** [httpie.models] wrappers *)
Inductive HTTPMessage :=
| HTTPRequest (m : RawMessage)
| HTTPResponse (m : RawMessage).

Inductive HTTPMessageJson :=
| HTTPRequestJson (m : RawMessage)
| HTTPResponseJson (m : RawMessage).

(** ** Stream classes and their keyword arguments *)

Inductive StreamClass :=
| RawStream
| EncodedStream
| PrettyStream
| BufferedPrettyStream
| BaseStreamJson.

Inductive Conversion := mkConversion.

Record Formatting := {
  fmt_env : Environment;
  groups : list string;
  color_scheme : string;
  explicit_json : bool;
  fmt_format_options : list (string * string)
}.

(** The four shapes of [stream_kwargs]. *)
Inductive StreamKwargs :=
| KwChunkSize (chunk_size : Z)
| KwOnBodyChunkDownloaded (callback : option (bytes -> unit))
| KwPretty (env : Environment) (conversion : Conversion)
           (formatting : Formatting)
| KwEnv (env : Environment).

(** The positional part of a call of a stream class. *)
Inductive CallArgs :=
| SingleArgs (msg : HTTPMessage) (with_headers with_body : bool)
| DualArgs (msgReq msgRes : HTTPMessageJson)
           (with_headers_req with_body_req
            with_headers_res with_body_res : bool).

(** [not lst] for a list *)
Definition is_empty {A} (l : list A) : bool :=
  match l with
  | [] => true
  | _ :: _ => false
  end.

(** [x in lst] for a list of strings *)
Definition str_in (x : string) (l : list string) : bool :=
  existsb (String.eqb x) l.

(** ** Stream writers *)

(** [buf = outfile.buffer], falling back to [outfile] itself on
    [AttributeError]. *)
Definition resolve_buf (outfile : File) : handle :=
  if file_has_buffer outfile then Buffer else Outfile.

Definition write_stream (stream : Stream) (outfile : File) (flush : bool)
  : M unit :=
  let buf := resolve_buf outfile in
  for_in stream (fun chunk =>
    call_stdout outfile (Write buf (Bytes chunk)) ;;
    when flush (call_stdout outfile Flush)).

Definition write_stream_json (stream : Stream) (outfile : File) (flush : bool)
  : M unit :=
  let buf := resolve_buf outfile in
  for_in stream (fun chunk =>
    call_stdout outfile (Write buf (Bytes chunk)) ;;
    when flush (call_stdout outfile Flush)).

(** [needle in haystack] for [bytes]: a contiguous occurrence. *)
Fixpoint starts_with (needle haystack : bytes) : bool :=
  match needle, haystack with
  | [], _ => true
  | _ :: _, [] => false
  | a :: needle', b :: haystack' =>
      Byte.eqb a b && starts_with needle' haystack'
  end.

Fixpoint bytes_in (needle haystack : bytes) : bool :=
  starts_with needle haystack ||
  match haystack with
  | [] => false
  | _ :: haystack' => bytes_in needle haystack'
  end.

(** [b'\x1b['] *)
Definition color : bytes := [x1b; x5b].

Definition write_stream_with_colors_win_py3
    (stream : Stream) (outfile : File) (flush : bool) : M unit :=
  let encoding := file_encoding outfile in
  for_in stream (fun chunk =>
    (if bytes_in color chunk then
       match decode encoding chunk with
       | Some s => call_stdout outfile (Write Outfile (Text s))
       | None => raise UnicodeDecodeError
       end
     else
       if file_has_buffer outfile then
         call_stdout outfile (Write Buffer (Bytes chunk))
       else raise AttributeError) ;;
    when flush (call_stdout outfile Flush)).

(** ** Selector, producers and entry points *)

(** [MESSAGE_SEPARATOR = '\n\n'] *)
Definition MESSAGE_SEPARATOR : string :=
  String (ascii_of_nat 10) (String (ascii_of_nat 10) EmptyString).

(** [MESSAGE_SEPARATOR.encode()]: the UTF-8 encoding of an ASCII-only [str] is
    its characters as bytes. *)
Definition MESSAGE_SEPARATOR_BYTES : bytes :=
  list_byte_of_string MESSAGE_SEPARATOR.

(** How a write ends: the function returns ([Completed]), returns after
    swallowing a broken pipe ([SuppressedBrokenPipe]), or lets the exception
    [e] out ([Failed e]). *)
Inductive WriteOutcome :=
| Completed
| SuppressedBrokenPipe
| Failed (e : exn).

(** [e.errno == errno.EPIPE] *)
Definition errno_is_EPIPE (errno : option Z) : bool :=
  match errno with
  | Some n => Z.eqb n EPIPE
  | None => false
  end.

(** The [try: ... except IOError as e: ...] block shared by the two entry
    points.  An exception out of [env.stderr.write] inside the handler gets
    out of the function. *)
Definition try_write (env : Environment) (args : Namespace) (write : M unit)
  : World -> World * WriteOutcome :=
  fun w =>
    match write w with
    | (w', Ok _) => (w', Completed)
    | (w', Raise (IOError errno)) =>
        let show_traceback := debug args || traceback args in
        if negb show_traceback && errno_is_EPIPE errno then
          match stderr_write env [10%N] w' with
          | (w'', Ok _) => (w'', SuppressedBrokenPipe)
          | (w'', Raise e) => (w'', Failed e)
          end
        else (w', Failed (IOError errno))
    | (w', Raise e) => (w', Failed e)
    end.

(** The dict [{requests.PreparedRequest: HTTPRequest, requests.Response:
    HTTPResponse}], indexed by [type(requests_message)]. *)
Definition message_classes (r : RequestsMessage) : RawMessage -> HTTPMessage :=
  match r with
  | PreparedRequest _ => HTTPRequest
  | Response _ => HTTPResponse
  end.

(** The dict [{requests.PreparedRequest: HTTPRequestJson, requests.Response:
    HTTPResponseJson}]. *)
Definition message_classes_json (r : RequestsMessage)
  : RawMessage -> HTTPMessageJson :=
  match r with
  | PreparedRequest _ => HTTPRequestJson
  | Response _ => HTTPResponseJson
  end.

Section Writer.

(** [RawStream.CHUNK_SIZE] and [RawStream.CHUNK_SIZE_BY_LINE], class
    constants of [httpie.output.streams]. *)
Variables CHUNK_SIZE CHUNK_SIZE_BY_LINE : Z.

(** Calling a stream class of [httpie.output.streams] and iterating over the
    object: [stream_class(..., **stream_kwargs)]. *)
Variable stream_class_call : StreamClass -> CallArgs -> StreamKwargs -> Stream.

Definition get_stream_type_and_kwargs
    (env : Environment) (args : Namespace) : StreamClass * StreamKwargs :=
  if negb (stdout_isatty env) && is_empty (prettify args) then
    (RawStream,
     KwChunkSize (if stream args then CHUNK_SIZE_BY_LINE else CHUNK_SIZE))
  else if String.eqb (output_format_form args) "JSON" then
    (BaseStreamJson, KwOnBodyChunkDownloaded None)
  else if negb (is_empty (prettify args)) then
    (if stream args then PrettyStream else BufferedPrettyStream,
     KwPretty env mkConversion
       {| fmt_env := env;
          groups := prettify args;
          color_scheme := style args;
          explicit_json := json args;
          fmt_format_options := format_options args |})
  else
    (EncodedStream, KwEnv env).

(** [yield from inner], then [tail] once [inner] is exhausted; an exception
    out of [inner] ends the generator there. *)
Definition yield_from_then (inner : Stream) (tail : list bytes) : Stream :=
  match stream_exn inner with
  | Some e => inner
  | None => {| chunks := chunks inner ++ tail; stream_exn := None |}
  end.

Definition build_output_stream_for_message
    (args : Namespace) (env : Environment)
    (requests_message : RequestsMessage)
    (with_headers with_body : bool) : Stream :=
  let '(stream_class, stream_kwargs) := get_stream_type_and_kwargs env args in
  let message_class := message_classes requests_message in
  yield_from_then
    (stream_class_call stream_class
       (SingleArgs (message_class (raw requests_message))
                   with_headers with_body)
       stream_kwargs)
    (if stdout_isatty env && with_body
        && negb (getattr (is_body_upload_chunk (raw requests_message)) false)
     then [MESSAGE_SEPARATOR_BYTES] else []).

Definition build_output_stream_for_message_json
    (args : Namespace) (env : Environment)
    (requests_message : RequestsMessage * RequestsMessage)
    (with_headers_req with_body_req with_headers_res with_body_res : bool)
  : Stream :=
  let '(stream_class, stream_kwargs) := get_stream_type_and_kwargs env args in
  let message_class := message_classes_json (fst requests_message) in
  let message_class2 := message_classes_json (snd requests_message) in
  yield_from_then
    (stream_class_call stream_class
       (DualArgs (message_class (raw (fst requests_message)))
                 (message_class2 (raw (snd requests_message)))
                 with_headers_req with_body_req
                 with_headers_res with_body_res)
       stream_kwargs)
    [].

Definition write_message
    (requests_message : RequestsMessage) (env : Environment)
    (args : Namespace) (with_headers with_body : bool)
  : World -> World * WriteOutcome :=
  if negb (with_body || with_headers) then fun w => (w, Completed)
  else
    let stream_ :=
      build_output_stream_for_message
        args env requests_message with_headers with_body in
    let outfile := stdout env in
    let flush := stdout_isatty env || stream args in
    try_write env args
      (if is_windows env && str_in "colors" (prettify args) then
         write_stream_with_colors_win_py3 stream_ outfile flush
       else
         write_stream stream_ outfile flush).

Definition write_message_json
    (requests_message : RequestsMessage * RequestsMessage)
    (env : Environment) (args : Namespace)
    (with_headers_req with_body_req with_headers_res with_body_res : bool)
  : World -> World * WriteOutcome :=
  if negb (with_body_req || with_headers_req
           || with_body_res || with_headers_res)
  then fun w => (w, Completed)
  else
    let stream_ :=
      build_output_stream_for_message_json
        args env requests_message
        with_headers_req with_body_req with_headers_res with_body_res in
    let outfile := stdout env in
    let flush := stdout_isatty env || stream args in
    try_write env args (write_stream_json stream_ outfile flush).

End Writer.

(** ** The stream classes *)

Section StreamClasses.

(** What a stream class yields for one message, given the keyword arguments
    it was selected with: the formatting engines behind the classes, for the
    two families of message wrappers. *)
Variable render_single :
  StreamClass -> HTTPMessage -> bool -> bool -> StreamKwargs -> list bytes.
Variable render_json :
  StreamClass -> HTTPMessageJson -> bool -> bool -> StreamKwargs -> list bytes.

(** Modelled from the spec: the stream classes of [httpie.output.streams],
    whose source this module only imports.  A strategy turns one message into
    chunks, headers first and then the body, under its configuration; for a
    request+response pair the producer's strategy formats the first message
    fully and then the second, under the one class and configuration chosen
    (sections 4.2 and 9).  Strategies are pure over their input domain and
    never raise (section 7). *)
Definition stream_classes
    (cls : StreamClass) (a : CallArgs) (kw : StreamKwargs) : Stream :=
  match a with
  | SingleArgs m h b =>
      {| chunks := render_single cls m h b kw; stream_exn := None |}
  | DualArgs rq rs hq bq hs bs =>
      {| chunks := render_json cls rq hq bq kw ++ render_json cls rs hs bs kw;
         stream_exn := None |}
  end.

End StreamClasses.

(** ** Concrete objects used to run the definitions *)

Module Demo.

(** The [latin-1] codec: code point [n] is byte [n]. *)
Definition latin_1 : Codec :=
  {| decode := fun b => Some (map Byte.to_N b);
     encode := fun s =>
       fold_right
         (fun c acc =>
            match Byte.of_N c, acc with
            | Some x, Some l => Some (x :: l)
            | _, _ => None
            end)
         (Some []) s |}.

(** A console whose calls all succeed. *)
Definition console : File :=
  {| file_has_buffer := true;
     file_encoding := latin_1;
     file_fault := fun _ _ => None |}.

(** A pipe whose reader goes away after [n] calls: every later call raises
    [BrokenPipeError]. *)
Definition closing_pipe (n : nat) : File :=
  {| file_has_buffer := true;
     file_encoding := latin_1;
     file_fault := fun done _ =>
       if Nat.leb n (List.length done) then Some (IOError (Some EPIPE)) else None |}.


Definition tty_env : Environment :=
  {| stdout := console; stdout_isatty := true; is_windows := false;
     stderr := console; stdout_is_stderr := false |}.

Definition windows_tty_env : Environment :=
  {| stdout := console; stdout_isatty := true; is_windows := true;
     stderr := console; stdout_is_stderr := false |}.

Definition piped_env : Environment :=
  {| stdout := console; stdout_isatty := false; is_windows := false;
     stderr := console; stdout_is_stderr := false |}.



Definition plain_args : Namespace :=
  {| prettify := []; stream := false; output_format_form := "";
     style := "auto"; json := false; format_options := [];
     debug := false; traceback := false |}.

Definition with_prettify (groups : list string) (a : Namespace) : Namespace :=
  {| prettify := groups; stream := stream a;
     output_format_form := output_format_form a;
     style := style a; json := json a; format_options := format_options a;
     debug := debug a; traceback := traceback a |}.

Definition with_output_format_form (s : string) (a : Namespace) : Namespace :=
  {| prettify := prettify a; stream := stream a;
     output_format_form := s;
     style := style a; json := json a; format_options := format_options a;
     debug := debug a; traceback := traceback a |}.


Definition json_args : Namespace := with_output_format_form "JSON" plain_args.

Definition colors_args : Namespace :=
  with_prettify ["colors"; "format"] plain_args.

Definition hello : bytes := list_byte_of_string "hello".

Definition request : RequestsMessage :=
  PreparedRequest
    {| headers := [("Accept", "*/*")]; body := [];
       is_body_upload_chunk := None |}.

Definition upload_chunk : RequestsMessage :=
  PreparedRequest
    {| headers := [("Accept", "*/*")]; body := hello;
       is_body_upload_chunk := Some true |}.

Definition response : RequestsMessage :=
  Response
    {| headers := [("Content-Type", "text/plain")]; body := hello;
       is_body_upload_chunk := None |}.

Definition message_body (m : HTTPMessage) : bytes :=
  match m with
  | HTTPRequest r => body r
  | HTTPResponse r => body r
  end.

Definition message_json_body (m : HTTPMessageJson) : bytes :=
  match m with
  | HTTPRequestJson r => body r
  | HTTPResponseJson r => body r
  end.

Definition status_line : bytes := list_byte_of_string "HTTP/1.1 200 OK".

Definition header_lines (h : bool) : list bytes :=
  if h then [status_line] else [].

(** Stand-ins for the formatting engines: a status line when headers are
    asked for, the body as one chunk when the body is. *)
Definition render_single
    (cls : StreamClass) (m : HTTPMessage) (h b : bool) (kw : StreamKwargs)
  : list bytes :=
  header_lines h ++ (if b then [message_body m] else []).

Definition render_json
    (cls : StreamClass) (m : HTTPMessageJson) (h b : bool) (kw : StreamKwargs)
  : list bytes :=
  header_lines h ++ (if b then [message_json_body m] else []).

Definition streams : StreamClass -> CallArgs -> StreamKwargs -> Stream :=
  stream_classes render_single render_json.

(** A colourised chunk, [ESC [ 1 m o k], and a plain one. *)
Definition coloured_chunk : bytes := [x1b; x5b; x31; x6d; x6f; x6b].
Definition plain_chunk : bytes := [x6f; x6b; x0a].

(** A strategy that yields the two chunks above whatever it is called on. *)
Definition coloured_streams
    (cls : StreamClass) (a : CallArgs) (kw : StreamKwargs) : Stream :=
  {| chunks := [coloured_chunk; plain_chunk]; stream_exn := None |}.

Definition empty_world : World := {| stdout_ops := []; stderr_ops := [] |}.

Definition json_colors_args : Namespace :=
  with_output_format_form "JSON" colors_args.

End Demo.

(** ** Vocabulary of the statements *)

(** The world after the calls [ops] succeeded on [env.stdout]. *)
Definition log (w : World) (ops : list sink_op) : World :=
  {| stdout_ops := stdout_ops w ++ ops; stderr_ops := stderr_ops w |}.

(** A file none of whose calls raises. *)
Definition reliable (f : File) : Prop :=
  forall done op, file_fault f done op = None.

(** [l1] is an initial segment of [l2]. *)
Definition initial_segment {A} (l1 l2 : list A) : Prop :=
  exists rest, l2 = l1 ++ rest.

(** The calls one chunk costs the plain writers. *)
Definition chunk_ops (buf : handle) (flush : bool) (chunk : bytes)
  : list sink_op :=
  Write buf (Bytes chunk) :: (if flush then [Flush] else []).

(** The calls one chunk costs the colour-splitting writer. *)
Definition colour_chunk_ops (enc : Codec) (flush : bool) (chunk : bytes)
  : list sink_op :=
  (if bytes_in color chunk then
     match decode enc chunk with
     | Some s => [Write Outfile (Text s)]
     | None => []
     end
   else [Write Buffer (Bytes chunk)])
  ++ (if flush then [Flush] else []).

(** The bytes a sequence of calls puts on the wire.  Bytes go down in the
    order of the calls.  Text is encoded with the file's declared encoding by
    the text layer, where it may wait until the next flush: it follows
    everything written before it, and a write of bytes that comes while text
    is waiting ([pending]) leaves the order on the wire undetermined, for
    which the answer is [None]. *)
Fixpoint wire_bytes_from (enc : Codec) (pending : bool) (ops : list sink_op)
  : option bytes :=
  match ops with
  | [] => Some []
  | Flush :: ops' => wire_bytes_from enc false ops'
  | Write _ (Bytes b) :: ops' =>
      if pending then None
      else option_map (app b) (wire_bytes_from enc false ops')
  | Write _ (Text s) :: ops' =>
      match encode enc s, wire_bytes_from enc true ops' with
      | Some b, Some rest => Some (b ++ rest)
      | _, _ => None
      end
  end.

Definition wire_bytes (enc : Codec) (ops : list sink_op) : option bytes :=
  wire_bytes_from enc false ops.

Definition is_flush (op : sink_op) : bool :=
  match op with
  | Flush => true
  | Write _ _ => false
  end.

Definition count_flush (ops : list sink_op) : nat :=
  List.length (filter is_flush ops).

Definition count_write (ops : list sink_op) : nat :=
  List.length (filter (fun op => negb (is_flush op)) ops).

(** The chunks the colour-splitting writer can decode. *)
Definition decodable (enc : Codec) (chunk : bytes) : Prop :=
  bytes_in color chunk = true -> decode enc chunk <> None.

(** [env.stderr.write('\n')], as logged. *)
Definition newline_on_stderr : sink_op := Write Outfile (Text [10%N]).

(** The file object behind [env.stderr], and the calls it has received. *)
Definition stderr_file (env : Environment) : File :=
  if stdout_is_stderr env then stdout env else stderr env.

Definition stderr_log (env : Environment) (w : World) : list sink_op :=
  if stdout_is_stderr env then stdout_ops w else stderr_ops w.

(** The world once [env.stderr] has taken a newline. *)
Definition with_newline (env : Environment) (w : World) : World :=
  if stdout_is_stderr env then
    {| stdout_ops := stdout_ops w ++ [newline_on_stderr];
       stderr_ops := stderr_ops w |}
  else
    {| stdout_ops := stdout_ops w;
       stderr_ops := stderr_ops w ++ [newline_on_stderr] |}.




(** ** The loop bodies, named *)

(** What [write_stream] and [write_stream_json] do with one chunk. *)
Definition plain_body (outfile : File) (flush : bool) : bytes -> M unit :=
  fun chunk =>
    call_stdout outfile (Write (resolve_buf outfile) (Bytes chunk)) ;;
    when flush (call_stdout outfile Flush).

(** What [write_stream_with_colors_win_py3] does with one chunk. *)
Definition colour_body (outfile : File) (flush : bool) : bytes -> M unit :=
  fun chunk =>
    (if bytes_in color chunk then
       match decode (file_encoding outfile) chunk with
       | Some s => call_stdout outfile (Write Outfile (Text s))
       | None => raise UnicodeDecodeError
       end
     else
       if file_has_buffer outfile then
         call_stdout outfile (Write Buffer (Bytes chunk))
       else raise AttributeError) ;;
    when flush (call_stdout outfile Flush).

(** A chunk the colour-splitting writer gets through on [outfile]. *)
Definition passes (outfile : File) (chunk : bytes) : Prop :=
  if bytes_in color chunk
  then decode (file_encoding outfile) chunk <> None
  else file_has_buffer outfile = true.

(** The keyword arguments that belong to a stream class. *)
Definition kwargs_fit (cls : StreamClass) (kw : StreamKwargs) : Prop :=
  match cls, kw with
  | RawStream, KwChunkSize _ => True
  | BaseStreamJson, KwOnBodyChunkDownloaded None => True
  | PrettyStream, KwPretty _ _ _ => True
  | BufferedPrettyStream, KwPretty _ _ _ => True
  | EncodedStream, KwEnv _ => True
  | _, _ => False
  end.

(** The separator condition of [build_output_stream_for_message]. *)
Definition wants_separator
    (env : Environment) (requests_message : RequestsMessage)
    (with_body : bool) : bool :=
  stdout_isatty env && with_body
  && negb (getattr (is_body_upload_chunk (raw requests_message)) false).

(** ** More concrete objects *)

Module Samples.

(** The [ascii] codec: bytes and code points below 128 only. *)
Definition ascii_codec : Codec :=
  {| decode := fun b =>
       if forallb (fun x => N.ltb (Byte.to_N x) 128) b
       then Some (map Byte.to_N b) else None;
     encode := fun s =>
       if forallb (fun c => N.ltb c 128) s
       then encode Demo.latin_1 s else None |}.

(** A text file object that declares an encoding and has no [buffer]
    attribute. *)
Definition bare_file : File :=
  {| file_has_buffer := false;
     file_encoding := Demo.latin_1;
     file_fault := fun _ _ => None |}.

(** A console that declares the [ascii] encoding. *)
Definition ascii_console : File :=
  {| file_has_buffer := true;
     file_encoding := ascii_codec;
     file_fault := fun _ _ => None |}.

(** A colourised chunk with a byte outside ASCII: [ESC \[ 1 m 0xe9]. *)
Definition coloured_e_acute : bytes := [x1b; x5b; x31; x6d; xe9].

Definition ascii_windows_env : Environment :=
  {| stdout := ascii_console; stdout_isatty := true; is_windows := true;
     stderr := Demo.console; stdout_is_stderr := false |}.

(** A strategy that yields a plain chunk, then a colourised one with a byte
    outside ASCII, then a plain one. *)
Definition accented_streams
    (cls : StreamClass) (a : CallArgs) (kw : StreamKwargs) : Stream :=
  {| chunks := [Demo.plain_chunk; coloured_e_acute; Demo.hello];
     stream_exn := None |}.









(** A strategy whose body download fails after the status line. *)
Definition interrupted_streams
    (cls : StreamClass) (a : CallArgs) (kw : StreamKwargs) : Stream :=
  {| chunks := [Demo.status_line]; stream_exn := Some (IOError None) |}.

End Samples.

(** * Properties *)

(** ** Selector *)

(** C1: the selector answers by first match: Raw (line-sized chunks under
    [--stream], the block size otherwise) when the output is not a terminal
    and no prettify group is asked for; else the dual strategy with no
    body-chunk callback when the JSON form is asked for; else the streamed or
    buffered Pretty strategy when some prettify group is; else Encoded.  The
    four cases exclude one another and cover every input. *)
Theorem get_stream_type_and_kwargs_first_match :
  forall (CHUNK_SIZE CHUNK_SIZE_BY_LINE : Z) env args,
    let r := get_stream_type_and_kwargs CHUNK_SIZE CHUNK_SIZE_BY_LINE env args in
    let raw_case := stdout_isatty env = false /\ prettify args = [] in
    let json_case := output_format_form args = "JSON" in
    let pretty_case := prettify args <> [] in
    (raw_case ->
     r = (RawStream,
          KwChunkSize (if stream args then CHUNK_SIZE_BY_LINE else CHUNK_SIZE)))
    /\ (~ raw_case -> json_case ->
        r = (BaseStreamJson, KwOnBodyChunkDownloaded None))
    /\ (~ raw_case -> ~ json_case -> pretty_case ->
        r = (if stream args then PrettyStream else BufferedPrettyStream,
             KwPretty env mkConversion
               {| fmt_env := env; groups := prettify args;
                  color_scheme := style args; explicit_json := json args;
                  fmt_format_options := format_options args |}))
    /\ (~ raw_case -> ~ json_case -> ~ pretty_case ->
        r = (EncodedStream, KwEnv env))
    /\ (raw_case \/ (~ raw_case /\ json_case)
        \/ (~ raw_case /\ ~ json_case /\ pretty_case)
        \/ (~ raw_case /\ ~ json_case /\ ~ pretty_case)).
Proof.
  intros CS CSL env args r raw_case json_case pretty_case.
  subst r raw_case json_case pretty_case.
  unfold get_stream_type_and_kwargs.
  destruct (stdout_isatty env) eqn:Htty;
    destruct (prettify args) as [|g gs] eqn:Hp;
    destruct (String.eqb_spec (output_format_form args) "JSON") as [Hj|Hj];
    cbn [negb andb is_empty];
    repeat split; intros;
    try reflexivity; try congruence; try tauto;
    try (exfalso; intuition congruence);
    try (right; intuition congruence).
Qed.

(** Witness of [get_stream_type_and_kwargs_first_match]: one input per
    case. *)
Lemma get_stream_type_and_kwargs_first_match_witness :
  get_stream_type_and_kwargs 102400 1 Demo.piped_env Demo.plain_args
  = (RawStream, KwChunkSize 102400)
  /\ get_stream_type_and_kwargs 102400 1 Demo.tty_env Demo.json_args
     = (BaseStreamJson, KwOnBodyChunkDownloaded None)
  /\ fst (get_stream_type_and_kwargs 102400 1 Demo.piped_env Demo.colors_args)
     = BufferedPrettyStream
  /\ get_stream_type_and_kwargs 102400 1 Demo.tty_env Demo.plain_args
     = (EncodedStream, KwEnv Demo.tty_env).
Proof.
  split; [|split; [|split]].
  - apply (get_stream_type_and_kwargs_first_match
             102400 1 Demo.piped_env Demo.plain_args).
    split; reflexivity.
  - apply (get_stream_type_and_kwargs_first_match
             102400 1 Demo.tty_env Demo.json_args).
    + intros [H _]; discriminate H.
    + reflexivity.
  - rewrite (proj1 (proj2 (proj2 (get_stream_type_and_kwargs_first_match
             102400 1 Demo.piped_env Demo.colors_args)))).
    + reflexivity.
    + intros [_ H]; discriminate H.
    + intros H; discriminate H.
    + intros H; discriminate H.
  - apply (get_stream_type_and_kwargs_first_match
             102400 1 Demo.tty_env Demo.plain_args).
    + intros [H _]; discriminate H.
    + intros H; discriminate H.
    + intros H; apply H; reflexivity.
Defined.

(** ** The monad and the loop *)

Lemma log_nil : forall w, log w [] = w.
Proof.
  intros [o e]. unfold log. cbn. now rewrite app_nil_r.
Qed.

Lemma log_log : forall w a b, log (log w a) b = log w (a ++ b).
Proof.
  intros [o e] a b. unfold log. cbn. now rewrite app_assoc.
Qed.

Lemma initial_segment_refl : forall A (l : list A), initial_segment l l.
Proof.
  intros A l. exists []. now rewrite app_nil_r.
Qed.

Lemma initial_segment_nil : forall A (l : list A), initial_segment [] l.
Proof.
  intros A l. now exists l.
Qed.

Lemma initial_segment_app :
  forall A (l a b : list A), initial_segment a b ->
    initial_segment (l ++ a) (l ++ b).
Proof.
  intros A l a b [rest ->]. exists rest. now rewrite app_assoc.
Qed.

Lemma initial_segment_weaken :
  forall A (a b c : list A), initial_segment a b -> initial_segment a (b ++ c).
Proof.
  intros A a b c [rest ->]. exists (rest ++ c). now rewrite app_assoc.
Qed.

Lemma call_stdout_reliable :
  forall f op w, reliable f -> call_stdout f op w = (log w [op], Ok tt).
Proof.
  intros f op w Hf. unfold call_stdout. now rewrite Hf.
Qed.

(** The loop of a writer, given what one chunk does. *)
Section Loop.

Variable body : bytes -> M unit.
Variable ops_of : bytes -> list sink_op.
Variable good : bytes -> Prop.

Hypothesis body_trace :
  forall c w, exists d,
    fst (body c w) = log w d /\ initial_segment d (ops_of c)
    /\ (snd (body c w) = Ok tt -> d = ops_of c).

Hypothesis body_total :
  forall c w, good c -> snd (body c w) = Ok tt.

Lemma for_each_trace :
  forall cs w, exists d,
    fst (for_each body cs w) = log w d
    /\ initial_segment d (flat_map ops_of cs)
    /\ (snd (for_each body cs w) = Ok tt -> d = flat_map ops_of cs).
Proof.
  induction cs as [|c cs IH]; intros w.
  - exists []. cbn. rewrite log_nil. repeat split.
    apply initial_segment_refl.
  - cbn [for_each flat_map]. unfold bind.
    destruct (body_trace c w) as (d1 & Hw & Hseg & Hok).
    destruct (body c w) as [w1 [u|e]]; cbn in Hw, Hok; subst w1.
    + destruct u. rewrite (Hok eq_refl) in *.
      destruct (IH (log w (ops_of c))) as (d2 & Hw2 & Hseg2 & Hok2).
      exists (ops_of c ++ d2). rewrite Hw2, log_log. repeat split.
      * now apply initial_segment_app.
      * intros H. now rewrite (Hok2 H).
    + exists d1. cbn. repeat split.
      * now apply initial_segment_weaken.
      * discriminate.
Qed.

Lemma for_each_total :
  forall cs w, Forall good cs -> snd (for_each body cs w) = Ok tt.
Proof.
  induction cs as [|c cs IH]; intros w Hg; [reflexivity|].
  inversion Hg as [|? ? Hc Hcs]; subst.
  cbn [for_each]. unfold bind.
  pose proof (body_total c w Hc) as Hb.
  destruct (body c w) as [w1 [u|e]]; cbn in Hb; [|discriminate].
  now apply IH.
Qed.

Lemma for_in_trace :
  forall s w, exists d,
    fst (for_in s body w) = log w d
    /\ initial_segment d (flat_map ops_of (chunks s))
    /\ (snd (for_in s body w) = Ok tt -> d = flat_map ops_of (chunks s)).
Proof.
  intros s w. unfold for_in, bind.
  destruct (for_each_trace (chunks s) w) as (d & Hw & Hseg & Hok).
  exists d.
  destruct (for_each body (chunks s) w) as [w1 [u|e]]; cbn in Hw, Hok.
  - destruct u. destruct (stream_exn s); cbn; repeat split; auto;
      discriminate.
  - cbn. repeat split; auto; discriminate.
Qed.

Lemma for_in_total :
  forall s w, Forall good (chunks s) -> stream_exn s = None ->
    snd (for_in s body w) = Ok tt.
Proof.
  intros s w Hg Hs. unfold for_in, bind.
  pose proof (for_each_total (chunks s) w Hg) as Hb.
  destruct (for_each body (chunks s) w) as [w1 [u|e]]; cbn in Hb;
    [|discriminate].
  now rewrite Hs.
Qed.

End Loop.

(** ** The plain writers *)

Lemma op_step_trace :
  forall f op flush w, exists d,
    fst ((call_stdout f op ;; when flush (call_stdout f Flush)) w) = log w d
    /\ initial_segment d (op :: (if flush then [Flush] else []))
    /\ (snd ((call_stdout f op ;; when flush (call_stdout f Flush)) w) = Ok tt
        -> d = op :: (if flush then [Flush] else [])).
Proof.
  intros f op flush w. unfold bind, call_stdout.
  destruct (file_fault f (stdout_ops w) op) as [e|].
  - exists []. cbn. rewrite log_nil. repeat split.
    + apply initial_segment_nil.
    + discriminate.
  - fold (log w [op]).
    destruct flush; cbn [when].
    + destruct (file_fault f (stdout_ops (log w [op])) Flush) as [e|].
      * exists [op]. cbn [fst snd]. repeat split.
        -- now exists [Flush].
        -- discriminate.
      * fold (log (log w [op]) [Flush]). rewrite log_log.
        eexists; cbn [fst snd]; repeat split. apply initial_segment_refl.
    + exists [op]. cbn. repeat split.
      apply initial_segment_refl.
Qed.

Lemma op_step_total :
  forall f op flush w, reliable f ->
    snd ((call_stdout f op ;; when flush (call_stdout f Flush)) w) = Ok tt.
Proof.
  intros f op flush w Hf. unfold bind.
  rewrite call_stdout_reliable by assumption.
  destruct flush; cbn [when]; [|reflexivity].
  now rewrite call_stdout_reliable.
Qed.

Lemma write_stream_trace :
  forall s f flush w, exists d,
    fst (write_stream s f flush w) = log w d
    /\ initial_segment d (flat_map (chunk_ops (resolve_buf f) flush) (chunks s))
    /\ (snd (write_stream s f flush w) = Ok tt ->
        d = flat_map (chunk_ops (resolve_buf f) flush) (chunks s)).
Proof.
  intros s f flush w. unfold write_stream.
  apply for_in_trace. intros c w0. apply op_step_trace.
Qed.

Lemma write_stream_total :
  forall s f flush w, reliable f -> stream_exn s = None ->
    snd (write_stream s f flush w) = Ok tt.
Proof.
  intros s f flush w Hf Hs. unfold write_stream.
  apply for_in_total with (good := fun _ => True); auto.
  - intros c w0 _. now apply op_step_total.
  - apply Forall_forall. auto.
Qed.

(** What the expected calls of the plain writers amount to. *)

Lemma wire_bytes_plain :
  forall enc buf flush cs,
    wire_bytes enc (flat_map (chunk_ops buf flush) cs) = Some (List.concat cs).
Proof.
  intros enc buf flush cs. unfold wire_bytes.
  induction cs as [|c cs IH]; [reflexivity|].
  cbn [flat_map chunk_ops app wire_bytes_from List.concat].
  destruct flush; cbn [app wire_bytes_from]; now rewrite IH.
Qed.

Lemma count_write_plain :
  forall buf flush cs,
    count_write (flat_map (chunk_ops buf flush) cs) = List.length cs.
Proof.
  intros buf flush cs. unfold count_write.
  induction cs as [|c cs IH]; [reflexivity|].
  cbn [flat_map chunk_ops app filter is_flush negb List.length].
  destruct flush; cbn [app filter is_flush negb]; now rewrite IH.
Qed.

Lemma count_flush_plain :
  forall buf flush cs,
    count_flush (flat_map (chunk_ops buf flush) cs)
    = if flush then List.length cs else 0.
Proof.
  intros buf flush cs. unfold count_flush.
  induction cs as [|c cs IH]; [now destruct flush|].
  cbn [flat_map chunk_ops app filter is_flush List.length].
  destruct flush; cbn [app filter is_flush List.length]; now rewrite IH.
Qed.




(** C10: the single-message writer and the dual writer are the same function:
    on every stream, file, flush flag and world they resolve the same handle
    and leave the same calls on the sink, with the same result. *)
Theorem write_stream_json_is_write_stream :
  forall s f flush w,
    write_stream_json s f flush w = write_stream s f flush w
    /\ (exists done,
          fst (write_stream s f flush w) = log w done
          /\ fst (write_stream_json s f flush w) = log w done
          /\ forall h p, In (Write h p) done -> h = resolve_buf f).
Proof.
  intros s f flush w. split; [reflexivity|].
  destruct (write_stream_trace s f flush w) as (d & Hd & [rest Hseg] & _).
  exists d. split; [exact Hd|]. split; [exact Hd|].
  intros h p Hin.
  assert (Hall : In (Write h p)
                   (flat_map (chunk_ops (resolve_buf f) flush) (chunks s))).
  { rewrite Hseg. apply in_or_app. now left. }
  apply in_flat_map in Hall. destruct Hall as (c & _ & Hc).
  unfold chunk_ops in Hc. destruct Hc as [Hc|Hc].
  - now inversion Hc.
  - destruct flush; cbn in Hc; [destruct Hc as [Hc|[]]; discriminate|].
    destruct Hc.
Qed.

(** ** Nothing requested *)

(** C3: with neither headers nor body asked for, [write_message] returns at
    once: the world is untouched and the outcome is [Completed], whatever the
    stream classes, the sink and the message would do; and
    [write_message_json] does the same when its four flags are off. *)
Theorem write_message_nothing_requested :
  forall CHUNK_SIZE CHUNK_SIZE_BY_LINE stream_class_call env args w,
    (forall requests_message,
        write_message CHUNK_SIZE CHUNK_SIZE_BY_LINE stream_class_call
          requests_message env args false false w = (w, Completed))
    /\ (forall requests_message,
          write_message_json CHUNK_SIZE CHUNK_SIZE_BY_LINE stream_class_call
            requests_message env args false false false false w
          = (w, Completed)).
Proof.
  intros. split; intros; reflexivity.
Qed.

(** ** The colour-splitting writer *)



Lemma raise_step_trace :
  forall e (k : M unit) ops w, exists d,
    fst ((@raise unit e ;; k) w) = log w d
    /\ initial_segment d ops
    /\ (snd ((@raise unit e ;; k) w) = Ok tt -> d = ops).
Proof.
  intros e k ops w. exists []. unfold bind, raise. cbn. rewrite log_nil.
  repeat split.
  - apply initial_segment_nil.
  - discriminate.
Qed.

Lemma write_stream_with_colors_win_py3_trace :
  forall s f flush w, exists d,
    fst (write_stream_with_colors_win_py3 s f flush w) = log w d
    /\ initial_segment d
         (flat_map (colour_chunk_ops (file_encoding f) flush) (chunks s))
    /\ (snd (write_stream_with_colors_win_py3 s f flush w) = Ok tt ->
        d = flat_map (colour_chunk_ops (file_encoding f) flush) (chunks s)).
Proof.
  intros s f flush w. unfold write_stream_with_colors_win_py3.
  apply for_in_trace. intros c w0. unfold colour_chunk_ops.
  destruct (bytes_in color c).
  - destruct (decode (file_encoding f) c) as [t|].
    + apply op_step_trace.
    + apply raise_step_trace.
  - destruct (file_has_buffer f).
    + apply op_step_trace.
    + apply raise_step_trace.
Qed.

Lemma write_stream_with_colors_win_py3_total :
  forall s f flush w,
    reliable f -> file_has_buffer f = true ->
    Forall (decodable (file_encoding f)) (chunks s) -> stream_exn s = None ->
    snd (write_stream_with_colors_win_py3 s f flush w) = Ok tt.
Proof.
  intros s f flush w Hf Hb Hdec Hs. unfold write_stream_with_colors_win_py3.
  apply for_in_total with (good := decodable (file_encoding f)); auto.
  intros c w0 Hc. unfold decodable in Hc. rewrite Hb.
  destruct (bytes_in color c).
  - destruct (decode (file_encoding f) c) as [t|].
    + now apply op_step_total.
    + now destruct Hc.
  - now apply op_step_total.
Qed.

(** What a writer that returned tells about the chunks it was given. *)
Section LoopReturned.

Variable body : bytes -> M unit.
Variable good : bytes -> Prop.

Hypothesis body_returned : forall c w, snd (body c w) = Ok tt -> good c.



End LoopReturned.











(** ** Entry points: broken pipes *)

Lemma errno_is_EPIPE_spec :
  forall errno, errno_is_EPIPE errno = true <-> errno = Some EPIPE.
Proof.
  intros [n|]; cbn.
  - rewrite Z.eqb_eq. split; [now intros -> | now intros [= ->]].
  - split; discriminate.
Qed.

Lemma stderr_write_returns :
  forall env w,
    file_fault (stderr_file env) (stderr_log env w) newline_on_stderr = None ->
    stderr_write env [10%N] w = (with_newline env w, Ok tt).
Proof.
  intros env w. unfold stderr_file, stderr_log, stderr_write, with_newline.
  destruct (stdout_is_stderr env); unfold call_stdout, newline_on_stderr;
    intros ->; reflexivity.
Qed.

Lemma stderr_write_raises :
  forall env w e,
    file_fault (stderr_file env) (stderr_log env w) newline_on_stderr = Some e ->
    stderr_write env [10%N] w = (w, Raise e).
Proof.
  intros env w e. unfold stderr_file, stderr_log, stderr_write.
  destruct (stdout_is_stderr env); unfold call_stdout, newline_on_stderr;
    intros ->; reflexivity.
Qed.



Lemma write_stream_stderr :
  forall s f flush w,
    stderr_ops (fst (write_stream s f flush w)) = stderr_ops w.
Proof.
  intros s f flush w.
  destruct (write_stream_trace s f flush w) as (d & -> & _). reflexivity.
Qed.

Lemma write_stream_with_colors_win_py3_stderr :
  forall s f flush w,
    stderr_ops (fst (write_stream_with_colors_win_py3 s f flush w))
    = stderr_ops w.
Proof.
  intros s f flush w.
  destruct (write_stream_with_colors_win_py3_trace s f flush w)
    as (d & -> & _).
  reflexivity.
Qed.




(** ** Entry points: flush policy and choice of writer *)

Lemma try_write_returned :
  forall env args write w w1,
    write w = (w1, Ok tt) -> try_write env args write w = (w1, Completed).
Proof.
  intros env args write w w1 H. unfold try_write. now rewrite H.
Qed.

(** C9, as the code has it: an entry point that has something to write
    flushes per chunk exactly when the output is a terminal or [--stream] is
    on.  [write_message] hands the stream to the colour-splitting writer
    exactly when the platform is Windows and ['colors'] is among the prettify
    groups, and to the plain writer otherwise; [write_message_json] always
    hands it to the plain writer [write_stream_json].  On a sink that raises
    nothing, with a stream that ends normally, the calls left on the sink are
    those of the writer chosen, and the outcome is [Completed]. *)
Theorem flush_policy_and_writer_choice :
  forall CHUNK_SIZE CHUNK_SIZE_BY_LINE stream_class_call env args w,
    let flush := stdout_isatty env || stream args in
    let colours := is_windows env && str_in "colors" (prettify args) in
    (forall requests_message with_headers with_body,
        with_body || with_headers = true ->
        let stream_ :=
          build_output_stream_for_message
            CHUNK_SIZE CHUNK_SIZE_BY_LINE stream_class_call
            args env requests_message with_headers with_body in
        write_message CHUNK_SIZE CHUNK_SIZE_BY_LINE stream_class_call
          requests_message env args with_headers with_body w
        = try_write env args
            ((if colours then write_stream_with_colors_win_py3
              else write_stream) stream_ (stdout env) flush) w
        /\ (reliable (stdout env) -> stream_exn stream_ = None ->
            colours = false ->
            write_message CHUNK_SIZE CHUNK_SIZE_BY_LINE stream_class_call
              requests_message env args with_headers with_body w
            = (log w (flat_map (chunk_ops (resolve_buf (stdout env)) flush)
                        (chunks stream_)), Completed))
        /\ (reliable (stdout env) -> stream_exn stream_ = None ->
            colours = true -> file_has_buffer (stdout env) = true ->
            Forall (decodable (file_encoding (stdout env))) (chunks stream_) ->
            write_message CHUNK_SIZE CHUNK_SIZE_BY_LINE stream_class_call
              requests_message env args with_headers with_body w
            = (log w (flat_map
                        (colour_chunk_ops (file_encoding (stdout env)) flush)
                        (chunks stream_)), Completed)))
    /\ (forall requests_message with_headers_req with_body_req
               with_headers_res with_body_res,
          with_body_req || with_headers_req
          || with_body_res || with_headers_res = true ->
          let stream_ :=
            build_output_stream_for_message_json
              CHUNK_SIZE CHUNK_SIZE_BY_LINE stream_class_call
              args env requests_message
              with_headers_req with_body_req with_headers_res with_body_res in
          write_message_json CHUNK_SIZE CHUNK_SIZE_BY_LINE stream_class_call
            requests_message env args
            with_headers_req with_body_req with_headers_res with_body_res w
          = try_write env args
              (write_stream_json stream_ (stdout env) flush) w
          /\ (reliable (stdout env) -> stream_exn stream_ = None ->
              write_message_json
                CHUNK_SIZE CHUNK_SIZE_BY_LINE stream_class_call
                requests_message env args
                with_headers_req with_body_req with_headers_res with_body_res
                w
              = (log w (flat_map (chunk_ops (resolve_buf (stdout env)) flush)
                          (chunks stream_)), Completed))).
Proof.
  intros CS CSL call env args w flush colours. split.
  - intros msg wh wb Hreq stream_.
    assert (Heq : write_message CS CSL call msg env args wh wb w
                  = try_write env args
                      ((if colours then write_stream_with_colors_win_py3
                        else write_stream) stream_ (stdout env) flush) w).
    { unfold write_message. rewrite Hreq. cbn [negb]. fold stream_ flush.
      fold colours. now destruct colours. }
    split; [exact Heq|]. split.
    + intros Hf Hs Hc. rewrite Heq, Hc.
      apply try_write_returned.
      destruct (write_stream_trace stream_ (stdout env) flush w)
        as (d & Hd & _ & Hok).
      pose proof (write_stream_total stream_ (stdout env) flush w Hf Hs)
        as Ht.
      rewrite (Hok Ht) in Hd.
      destruct (write_stream stream_ (stdout env) flush w) as [w1 r].
      cbn in *. now subst.
    + intros Hf Hs Hc Hb Hdec. rewrite Heq, Hc.
      apply try_write_returned.
      destruct (write_stream_with_colors_win_py3_trace
                  stream_ (stdout env) flush w) as (d & Hd & _ & Hok).
      pose proof (write_stream_with_colors_win_py3_total
                    stream_ (stdout env) flush w Hf Hb Hdec Hs) as Ht.
      rewrite (Hok Ht) in Hd.
      destruct (write_stream_with_colors_win_py3
                  stream_ (stdout env) flush w) as [w1 r].
      cbn in *. now subst.
  - intros msgs hq bq hs bs Hreq stream_.
    assert (Heq : write_message_json CS CSL call msgs env args hq bq hs bs w
                  = try_write env args
                      (write_stream_json stream_ (stdout env) flush) w).
    { unfold write_message_json. rewrite Hreq. reflexivity. }
    split; [exact Heq|].
    intros Hf Hs. rewrite Heq. apply try_write_returned.
    change write_stream_json with write_stream.
    destruct (write_stream_trace stream_ (stdout env) flush w)
      as (d & Hd & _ & Hok).
    pose proof (write_stream_total stream_ (stdout env) flush w Hf Hs) as Ht.
    rewrite (Hok Ht) in Hd.
    destruct (write_stream stream_ (stdout env) flush w) as [w1 r].
    cbn in *. now subst.
Qed.

(** Witness of [flush_policy_and_writer_choice]: on a Windows terminal with
    colours, [write_message] sends the colourised chunk to the text layer and
    flushes after each chunk; [write_message_json] sends every chunk to the
    byte layer. *)
Lemma flush_policy_and_writer_choice_witness :
  write_message 102400 1 Demo.coloured_streams Demo.response
    Demo.windows_tty_env Demo.colors_args true false Demo.empty_world
  = (log Demo.empty_world
       [Write Outfile (Text [27; 91; 49; 109; 111; 107]%N); Flush;
        Write Buffer (Bytes Demo.plain_chunk); Flush], Completed)
  /\ write_message_json 102400 1 Demo.coloured_streams
       (Demo.request, Demo.response)
       Demo.windows_tty_env Demo.json_colors_args true true true true
       Demo.empty_world
     = (log Demo.empty_world
          [Write Buffer (Bytes Demo.coloured_chunk); Flush;
           Write Buffer (Bytes Demo.plain_chunk); Flush], Completed).
Proof.
  split.
  - apply (proj1 (flush_policy_and_writer_choice
                    102400 1 Demo.coloured_streams
                    Demo.windows_tty_env Demo.colors_args Demo.empty_world)
             Demo.response true false eq_refl).
    + intros done op. reflexivity.
    + reflexivity.
    + reflexivity.
    + reflexivity.
    + repeat constructor; intros _; discriminate.
  - apply (proj2 (flush_policy_and_writer_choice
                    102400 1 Demo.coloured_streams
                    Demo.windows_tty_env Demo.json_colors_args
                    Demo.empty_world)
             (Demo.request, Demo.response) true true true true eq_refl).
    + intros done op. reflexivity.
    + reflexivity.
Defined.

(** C9 as stated fails for [write_message_json]: on Windows with ['colors']
    among the prettify groups it does not do what the colour-splitting writer
    would have done with the same stream: a colourised chunk goes to the byte
    layer. *)
Lemma write_message_json_never_colour_splits :
  is_windows Demo.windows_tty_env
  && str_in "colors" (prettify Demo.json_colors_args) = true
  /\ write_message_json 102400 1 Demo.coloured_streams
       (Demo.request, Demo.response)
       Demo.windows_tty_env Demo.json_colors_args true true true true
       Demo.empty_world
     <> try_write Demo.windows_tty_env Demo.json_colors_args
          (write_stream_with_colors_win_py3
             (build_output_stream_for_message_json
                102400 1 Demo.coloured_streams
                Demo.json_colors_args Demo.windows_tty_env
                (Demo.request, Demo.response) true true true true)
             (stdout Demo.windows_tty_env)
             (stdout_isatty Demo.windows_tty_env
              || stream Demo.json_colors_args))
          Demo.empty_world.
Proof.
  split; [reflexivity|]. cbv. discriminate.
Qed.

(** ** Producers *)

Lemma yield_from_then_nil : forall inner, yield_from_then inner [] = inner.
Proof.
  intros [cs [e|]]; unfold yield_from_then; cbn; [reflexivity|].
  now rewrite app_nil_r.
Qed.

(** C4, as the code has it: when the strategy of a single message runs to
    its end, [build_output_stream_for_message] yields the strategy's chunks
    followed by the separator [b"\n\n"], which is then the last chunk, when
    the output is a terminal, the body is asked for and the message is not an
    upload chunk; in every other case it yields the strategy's chunks and
    nothing more.  [build_output_stream_for_message_json] yields what its
    strategy yields and never adds a separator. *)
Theorem separator_rule :
  forall CHUNK_SIZE CHUNK_SIZE_BY_LINE stream_class_call args env,
    let selected :=
      get_stream_type_and_kwargs CHUNK_SIZE CHUNK_SIZE_BY_LINE env args in
    (forall requests_message with_headers with_body,
        let strategy :=
          stream_class_call (fst selected)
            (SingleArgs
               (message_classes requests_message (raw requests_message))
               with_headers with_body)
            (snd selected) in
        let produced :=
          build_output_stream_for_message
            CHUNK_SIZE CHUNK_SIZE_BY_LINE stream_class_call
            args env requests_message with_headers with_body in
        let upload :=
          getattr (is_body_upload_chunk (raw requests_message)) false in
        stream_exn strategy = None ->
        stream_exn produced = None
        /\ (stdout_isatty env = true -> with_body = true -> upload = false ->
            chunks produced = chunks strategy ++ [MESSAGE_SEPARATOR_BYTES]
            /\ last (chunks produced) [] = [x0a; x0a])
        /\ (stdout_isatty env = false \/ with_body = false \/ upload = true ->
            chunks produced = chunks strategy))
    /\ (forall requests_message with_headers_req with_body_req
               with_headers_res with_body_res,
          build_output_stream_for_message_json
            CHUNK_SIZE CHUNK_SIZE_BY_LINE stream_class_call
            args env requests_message
            with_headers_req with_body_req with_headers_res with_body_res
          = stream_class_call (fst selected)
              (DualArgs
                 (message_classes_json (fst requests_message)
                    (raw (fst requests_message)))
                 (message_classes_json (snd requests_message)
                    (raw (snd requests_message)))
                 with_headers_req with_body_req
                 with_headers_res with_body_res)
              (snd selected)).
Proof.
  intros CS CSL call args env selected. split.
  - intros msg wh wb strategy produced upload Hs.
    assert (Hp : produced
                 = yield_from_then strategy
                     (if stdout_isatty env && wb && negb upload
                      then [MESSAGE_SEPARATOR_BYTES] else [])).
    { subst produced strategy upload selected.
      unfold build_output_stream_for_message.
      now destruct (get_stream_type_and_kwargs CS CSL env args). }
    rewrite Hp. unfold yield_from_then. rewrite Hs. cbn [chunks stream_exn].
    split; [reflexivity|]. split.
    + intros -> -> ->. cbn [andb negb]. split; [reflexivity|].
      now rewrite last_last.
    + intros Hno.
      replace (stdout_isatty env && wb && negb upload) with false;
        [apply app_nil_r|].
      destruct Hno as [-> | [-> | ->]]; cbn.
      * reflexivity.
      * now rewrite andb_false_r.
      * now rewrite andb_false_r.
  - intros msgs hq bq hs bs. subst selected.
    unfold build_output_stream_for_message_json.
    destruct (get_stream_type_and_kwargs CS CSL env args).
    apply yield_from_then_nil.
Qed.

(** Witness of [separator_rule]: a response on a terminal ends with the
    separator; an upload chunk, and a response on a pipe, do not. *)
Lemma separator_rule_witness :
  chunks (build_output_stream_for_message 102400 1 Demo.streams
            Demo.plain_args Demo.tty_env Demo.response true true)
  = [Demo.status_line; Demo.hello; MESSAGE_SEPARATOR_BYTES]
  /\ chunks (build_output_stream_for_message 102400 1 Demo.streams
               Demo.plain_args Demo.tty_env Demo.upload_chunk false true)
     = [Demo.hello]
  /\ chunks (build_output_stream_for_message 102400 1 Demo.streams
               Demo.plain_args Demo.piped_env Demo.response true true)
     = [Demo.status_line; Demo.hello].
Proof.
  split; [|split].
  - destruct (proj1 (separator_rule 102400 1 Demo.streams
                       Demo.plain_args Demo.tty_env)
                Demo.response true true eq_refl) as (_ & Hsep & _).
    destruct (Hsep eq_refl eq_refl eq_refl) as [H _]. exact H.
  - destruct (proj1 (separator_rule 102400 1 Demo.streams
                       Demo.plain_args Demo.tty_env)
                Demo.upload_chunk false true eq_refl) as (_ & _ & Hno).
    apply Hno. right. right. reflexivity.
  - destruct (proj1 (separator_rule 102400 1 Demo.streams
                       Demo.plain_args Demo.piped_env)
                Demo.response true true eq_refl) as (_ & _ & Hno).
    apply Hno. left. reflexivity.
Defined.

(** C4 as stated fails for the dual producer: on a terminal, with both bodies
    asked for and no upload chunk in sight, the stream ends normally and its
    last chunk is the response body, not the separator. *)
Lemma separator_missing_in_dual_stream :
  stdout_isatty Demo.tty_env = true
  /\ stream_exn (build_output_stream_for_message_json 102400 1 Demo.streams
                   Demo.json_args Demo.tty_env (Demo.request, Demo.response)
                   true true true true) = None
  /\ last (chunks (build_output_stream_for_message_json 102400 1 Demo.streams
                     Demo.json_args Demo.tty_env
                     (Demo.request, Demo.response) true true true true)) []
     <> MESSAGE_SEPARATOR_BYTES.
Proof.
  split; [reflexivity|]. split; [reflexivity|]. cbv. discriminate.
Qed.



(** * Further properties of the writers *)

Lemma bind_returned :
  forall A (m : M unit) (k : M A) w w1,
    m w = (w1, Ok tt) -> (m ;; k) w = k w1.
Proof.
  intros A m k w w1 H. unfold bind. now rewrite H.
Qed.

Lemma bind_raised :
  forall A (m : M unit) (k : M A) w w1 e,
    m w = (w1, Raise e) -> (m ;; k) w = (w1, Raise e).
Proof.
  intros A m k w w1 e H. unfold bind. now rewrite H.
Qed.

Lemma for_each_app :
  forall body a b w,
    for_each body (a ++ b) w = (for_each body a ;; for_each body b) w.
Proof.
  intros body a b. induction a as [|c a IH]; intros w.
  - reflexivity.
  - cbn [app for_each]. unfold bind.
    destruct (body c w) as [w1 [u|e]]; [|reflexivity].
    rewrite IH. reflexivity.
Qed.

Lemma for_each_ext :
  forall body1 body2 cs,
    (forall c, In c cs -> forall w, body1 c w = body2 c w) ->
    forall w, for_each body1 cs w = for_each body2 cs w.
Proof.
  intros body1 body2 cs. induction cs as [|c cs IH]; intros H w.
  - reflexivity.
  - cbn [for_each]. unfold bind. rewrite (H c (or_introl eq_refl) w).
    destruct (body2 c w) as [w1 [u|e]]; [|reflexivity].
    apply IH. intros c0 Hc0. apply H. now right.
Qed.

Lemma for_in_app :
  forall body a b e w,
    for_in {| chunks := a ++ b; stream_exn := e |} body w
    = (for_in {| chunks := a; stream_exn := None |} body ;;
       for_in {| chunks := b; stream_exn := e |} body) w.
Proof.
  intros body a b e w. unfold for_in. cbn [chunks stream_exn].
  unfold bind at 1. rewrite for_each_app. unfold bind.
  destruct (for_each body a w) as [w1 [u|e1]]; reflexivity.
Qed.

Lemma plain_body_run :
  forall f flush c w, reliable f ->
    plain_body f flush c w = (log w (chunk_ops (resolve_buf f) flush c), Ok tt).
Proof.
  intros f flush c w Hf. unfold plain_body, chunk_ops.
  rewrite (bind_returned _ _ _ _ _ (call_stdout_reliable f _ w Hf)).
  destruct flush; cbn [when].
  - rewrite call_stdout_reliable by assumption. now rewrite log_log.
  - reflexivity.
Qed.

Lemma colour_body_run :
  forall f flush c w, reliable f -> passes f c ->
    colour_body f flush c w
    = (log w (colour_chunk_ops (file_encoding f) flush c), Ok tt).
Proof.
  intros f flush c w Hf Hc. unfold colour_body, colour_chunk_ops.
  unfold passes in Hc.
  destruct (bytes_in color c).
  - destruct (decode (file_encoding f) c) as [t|]; [|now destruct Hc].
    rewrite (bind_returned _ _ _ _ _ (call_stdout_reliable f _ w Hf)).
    destruct flush; cbn [when app].
    + rewrite call_stdout_reliable by assumption. now rewrite log_log.
    + reflexivity.
  - rewrite Hc.
    rewrite (bind_returned _ _ _ _ _ (call_stdout_reliable f _ w Hf)).
    destruct flush; cbn [when app].
    + rewrite call_stdout_reliable by assumption. now rewrite log_log.
    + reflexivity.
Qed.

Lemma for_each_run :
  forall body ops_of cs,
    (forall c, In c cs -> forall w, body c w = (log w (ops_of c), Ok tt)) ->
    forall w, for_each body cs w = (log w (flat_map ops_of cs), Ok tt).
Proof.
  intros body ops_of cs. induction cs as [|c cs IH]; intros H w.
  - cbn. now rewrite log_nil.
  - cbn [for_each flat_map].
    rewrite (bind_returned _ _ _ _ _ (H c (or_introl eq_refl) w)).
    rewrite IH, log_log; [reflexivity|].
    intros c0 Hc0. apply H. now right.
Qed.

Lemma for_in_run :
  forall body ops_of s,
    (forall c, In c (chunks s) ->
               forall w, body c w = (log w (ops_of c), Ok tt)) ->
    forall w,
      for_in s body w
      = (log w (flat_map ops_of (chunks s)),
         match stream_exn s with Some e => Raise e | None => Ok tt end).
Proof.
  intros body ops_of s H w. unfold for_in.
  rewrite (bind_returned _ _ _ _ _ (for_each_run body ops_of _ H w)).
  now destruct (stream_exn s).
Qed.

(** X1: writing a stream whose chunks are [a] followed by [b] is writing [a]
    and then [b]: each of the three writers, run on the concatenation, does
    what it does on the first part followed by what it does on the second,
    and stops with the first part if that one raises. *)
Theorem writers_compose :
  forall a b e f flush w,
    write_stream {| chunks := a ++ b; stream_exn := e |} f flush w
    = (write_stream {| chunks := a; stream_exn := None |} f flush ;;
       write_stream {| chunks := b; stream_exn := e |} f flush) w
    /\ write_stream_json {| chunks := a ++ b; stream_exn := e |} f flush w
       = (write_stream_json {| chunks := a; stream_exn := None |} f flush ;;
          write_stream_json {| chunks := b; stream_exn := e |} f flush) w
    /\ write_stream_with_colors_win_py3
         {| chunks := a ++ b; stream_exn := e |} f flush w
       = (write_stream_with_colors_win_py3
            {| chunks := a; stream_exn := None |} f flush ;;
          write_stream_with_colors_win_py3
            {| chunks := b; stream_exn := e |} f flush) w.
Proof.
  intros a b e f flush w. repeat split; apply for_in_app.
Qed.

(** X2: on a file with a buffer, the colour-splitting writer does exactly
    what the plain writer does with a stream none of whose chunks contains
    [ESC \[], whatever the file raises. *)
Theorem colour_writer_agrees_on_plain_streams :
  forall s f flush w,
    file_has_buffer f = true ->
    Forall (fun c => bytes_in color c = false) (chunks s) ->
    write_stream_with_colors_win_py3 s f flush w = write_stream s f flush w.
Proof.
  intros s f flush w Hb Hplain.
  unfold write_stream_with_colors_win_py3, write_stream, for_in, bind.
  rewrite (for_each_ext _
             (fun chunk =>
                call_stdout f (Write (resolve_buf f) (Bytes chunk)) ;;
                when flush (call_stdout f Flush))); [reflexivity|].
  intros c Hc w0.
  rewrite (proj1 (Forall_forall _ _) Hplain c Hc).
  unfold resolve_buf. now rewrite Hb.
Qed.

(** Witness of [colour_writer_agrees_on_plain_streams]: two plain chunks on a
    pipe that breaks after the first call. *)
Lemma colour_writer_agrees_on_plain_streams_witness :
  write_stream_with_colors_win_py3
    {| chunks := [Demo.hello; Demo.plain_chunk]; stream_exn := None |}
    (Demo.closing_pipe 1) true Demo.empty_world
  = write_stream
      {| chunks := [Demo.hello; Demo.plain_chunk]; stream_exn := None |}
      (Demo.closing_pipe 1) true Demo.empty_world.
Proof.
  apply (colour_writer_agrees_on_plain_streams
           {| chunks := [Demo.hello; Demo.plain_chunk]; stream_exn := None |}
           (Demo.closing_pipe 1) true Demo.empty_world).
  - reflexivity.
  - repeat constructor.
Defined.

(** X3: a stream that raises [e] once its chunks are out: on a file that
    raises nothing every chunk yielded before the exception is written (and
    flushed when [flush] is on), and then [e] comes out of the writer. *)
Theorem chunks_before_a_stream_exception_are_written :
  forall s e f flush w,
    reliable f -> stream_exn s = Some e ->
    write_stream s f flush w
    = (log w (flat_map (chunk_ops (resolve_buf f) flush) (chunks s)), Raise e)
    /\ write_stream_json s f flush w
       = (log w (flat_map (chunk_ops (resolve_buf f) flush) (chunks s)),
          Raise e)
    /\ (Forall (passes f) (chunks s) ->
        write_stream_with_colors_win_py3 s f flush w
        = (log w (flat_map (colour_chunk_ops (file_encoding f) flush)
                    (chunks s)), Raise e)).
Proof.
  intros s e f flush w Hf He.
  assert (Hplain : write_stream s f flush w
                   = (log w (flat_map (chunk_ops (resolve_buf f) flush)
                               (chunks s)), Raise e)).
  { unfold write_stream.
    rewrite (for_in_run (plain_body f flush)
               (chunk_ops (resolve_buf f) flush)).
    - now rewrite He.
    - intros c _ w0. now apply plain_body_run. }
  split; [exact Hplain|]. split; [exact Hplain|].
  intros Hpass. unfold write_stream_with_colors_win_py3.
  rewrite (for_in_run (colour_body f flush)
             (colour_chunk_ops (file_encoding f) flush)).
  - now rewrite He.
  - intros c Hc w0. apply colour_body_run; [assumption|].
    exact (proj1 (Forall_forall _ _) Hpass c Hc).
Qed.

(** Witness of [chunks_before_a_stream_exception_are_written]: the status
    line is written before the download fails. *)
Lemma chunks_before_a_stream_exception_are_written_witness :
  write_stream
    {| chunks := [Demo.status_line]; stream_exn := Some (IOError None) |}
    Demo.console true Demo.empty_world
  = (log Demo.empty_world [Write Buffer (Bytes Demo.status_line); Flush],
     Raise (IOError None)).
Proof.
  apply (proj1 (chunks_before_a_stream_exception_are_written
                  {| chunks := [Demo.status_line];
                     stream_exn := Some (IOError None) |}
                  (IOError None) Demo.console true Demo.empty_world
                  (fun done op => eq_refl) eq_refl)).
Defined.

(** X4: the colour-splitting writer stops at the first chunk it cannot get
    through: a colourised chunk the declared encoding does not decode raises
    [UnicodeDecodeError], a plain chunk on a file without a [buffer] raises
    [AttributeError] (the plain writers fall back to the file itself there);
    the chunks before it are on the sink, it and the chunks after it are
    not. *)
Theorem colour_writer_stops_at_first_bad_chunk :
  forall pre c post e f flush w,
    reliable f -> Forall (passes f) pre -> ~ passes f c ->
    write_stream_with_colors_win_py3
      {| chunks := pre ++ c :: post; stream_exn := e |} f flush w
    = (log w (flat_map (colour_chunk_ops (file_encoding f) flush) pre),
       Raise (if bytes_in color c then UnicodeDecodeError
              else AttributeError)).
Proof.
  intros pre c post e f flush w Hf Hpre Hc.
  unfold write_stream_with_colors_win_py3.
  rewrite for_in_app.
  assert (Hrun : for_in {| chunks := pre; stream_exn := None |}
                   (colour_body f flush) w
                 = (log w (flat_map (colour_chunk_ops (file_encoding f) flush)
                             pre), Ok tt)).
  { rewrite (for_in_run (colour_body f flush)
               (colour_chunk_ops (file_encoding f) flush)); [reflexivity|].
    intros c0 Hc0 w0. apply colour_body_run; [assumption|].
    exact (proj1 (Forall_forall _ _) Hpre c0 Hc0). }
  fold (colour_body f flush).
  rewrite (bind_returned _ _ _ _ _ Hrun).
  unfold for_in. cbn [chunks for_each]. unfold bind, colour_body.
  unfold passes in Hc.
  destruct (bytes_in color c).
  - destruct (decode (file_encoding f) c) as [t|]; [|reflexivity].
    exfalso. apply Hc. discriminate.
  - destruct (file_has_buffer f); [now destruct Hc | reflexivity].
Qed.

(** Witness of [colour_writer_stops_at_first_bad_chunk]: an accented
    colourised chunk on an ASCII console, and a plain chunk on a file without
    a buffer. *)
Lemma colour_writer_stops_at_first_bad_chunk_witness :
  write_stream_with_colors_win_py3
    {| chunks := [Demo.plain_chunk; Samples.coloured_e_acute; Demo.hello];
       stream_exn := None |}
    Samples.ascii_console false Demo.empty_world
  = (log Demo.empty_world [Write Buffer (Bytes Demo.plain_chunk)],
     Raise UnicodeDecodeError)
  /\ write_stream_with_colors_win_py3
       {| chunks := [Demo.coloured_chunk; Demo.plain_chunk];
          stream_exn := None |}
       Samples.bare_file false Demo.empty_world
     = (log Demo.empty_world
          [Write Outfile (Text [27; 91; 49; 109; 111; 107]%N)],
        Raise AttributeError).
Proof.
  split.
  - apply (colour_writer_stops_at_first_bad_chunk
             [Demo.plain_chunk] Samples.coloured_e_acute [Demo.hello] None
             Samples.ascii_console false Demo.empty_world).
    + intros done op. reflexivity.
    + repeat constructor.
    + intros H. apply H. reflexivity.
  - apply (colour_writer_stops_at_first_bad_chunk
             [Demo.coloured_chunk] Demo.plain_chunk [] None
             Samples.bare_file false Demo.empty_world).
    + intros done op. reflexivity.
    + repeat constructor. discriminate.
    + discriminate.
Defined.

(** * Further properties of the selector and the producers *)

(** X5: what a selected class tells about the inputs.  The keyword arguments
    always belong to the class returned.  [RawStream] is returned only for
    redirected output without prettify groups, [EncodedStream] only on a
    terminal without prettify groups, the two Pretty classes only when some
    prettify group is asked for (and then [args.stream] tells which), and
    [BaseStreamJson] only for the JSON form; with redirected output and no
    prettify group the JSON form never gets [BaseStreamJson]. *)
Theorem selected_class_characterised :
  forall (CHUNK_SIZE CHUNK_SIZE_BY_LINE : Z) env args,
    let r := get_stream_type_and_kwargs CHUNK_SIZE CHUNK_SIZE_BY_LINE env args in
    kwargs_fit (fst r) (snd r)
    /\ (fst r = RawStream <->
        stdout_isatty env = false /\ prettify args = [])
    /\ (fst r = BaseStreamJson <->
        output_format_form args = "JSON"
        /\ (stdout_isatty env = true \/ prettify args <> []))
    /\ (fst r = EncodedStream <->
        stdout_isatty env = true /\ prettify args = []
        /\ output_format_form args <> "JSON")
    /\ (fst r = PrettyStream <->
        prettify args <> [] /\ output_format_form args <> "JSON"
        /\ stream args = true)
    /\ (fst r = BufferedPrettyStream <->
        prettify args <> [] /\ output_format_form args <> "JSON"
        /\ stream args = false).
Proof.
  intros CS CSL env args r. subst r. unfold get_stream_type_and_kwargs.
  destruct (stdout_isatty env);
    destruct (prettify args) as [|g gs];
    destruct (String.eqb_spec (output_format_form args) "JSON") as [Hj|Hj];
    destruct (stream args);
    cbn [negb andb is_empty fst snd kwargs_fit];
    (split; [exact I|]);
    repeat split; intros;
    repeat match goal with
           | H : _ /\ _ |- _ => destruct H
           | H : _ \/ _ |- _ => destruct H
           end;
    try reflexivity; try discriminate; try congruence; try tauto;
    try (left; reflexivity); try (right; discriminate).
Qed.

(** Witness of [selected_class_characterised]: the JSON form with redirected
    output and no prettify group is answered with [RawStream]. *)
Lemma selected_class_characterised_witness :
  fst (get_stream_type_and_kwargs 102400 1 Demo.piped_env Demo.json_args)
  = RawStream
  /\ fst (get_stream_type_and_kwargs 102400 1 Demo.tty_env Demo.plain_args)
     = EncodedStream.
Proof.
  split.
  - apply (proj1 (proj2 (selected_class_characterised
                           102400 1 Demo.piped_env Demo.json_args))).
    split; reflexivity.
  - apply (proj1 (proj2 (proj2 (proj2 (selected_class_characterised
                           102400 1 Demo.tty_env Demo.plain_args))))).
    repeat split. discriminate.
Defined.

(** X6: the single-message producer never alters what its strategy yields:
    its stream ends the way the strategy's does, and its chunks are the
    strategy's followed by at most one chunk, the separator.  The separator is
    there exactly when the strategy ran to its end, the output is a terminal,
    the body is asked for and the message is not an upload chunk: a strategy
    that raises is never followed by a separator. *)
Theorem producer_extends_strategy :
  forall CHUNK_SIZE CHUNK_SIZE_BY_LINE stream_class_call args env
         requests_message with_headers with_body,
    let selected :=
      get_stream_type_and_kwargs CHUNK_SIZE CHUNK_SIZE_BY_LINE env args in
    let strategy :=
      stream_class_call (fst selected)
        (SingleArgs (message_classes requests_message (raw requests_message))
                    with_headers with_body)
        (snd selected) in
    let produced :=
      build_output_stream_for_message
        CHUNK_SIZE CHUNK_SIZE_BY_LINE stream_class_call
        args env requests_message with_headers with_body in
    stream_exn produced = stream_exn strategy
    /\ exists tail,
         chunks produced = chunks strategy ++ tail
         /\ (tail = [MESSAGE_SEPARATOR_BYTES] \/ tail = [])
         /\ (tail = [MESSAGE_SEPARATOR_BYTES] <->
             stream_exn strategy = None
             /\ wants_separator env requests_message with_body = true).
Proof.
  intros CS CSL call args env msg wh wb selected strategy produced.
  assert (Hp : produced
               = yield_from_then strategy
                   (if wants_separator env msg wb
                    then [MESSAGE_SEPARATOR_BYTES] else [])).
  { subst produced strategy selected.
    unfold build_output_stream_for_message, wants_separator.
    now destruct (get_stream_type_and_kwargs CS CSL env args). }
  rewrite Hp. unfold yield_from_then.
  destruct (stream_exn strategy) as [e|] eqn:He.
  - split; [exact He|]. exists []. rewrite app_nil_r.
    repeat split; auto; try discriminate.
    intros [H _]. discriminate H.
  - cbn [chunks stream_exn]. split; [reflexivity|].
    destruct (wants_separator env msg wb).
    + exists [MESSAGE_SEPARATOR_BYTES]. repeat split; auto.
    + exists []. repeat split; auto; try discriminate.
      intros [_ H]. discriminate H.
Qed.

(** Witness of [producer_extends_strategy]: on a terminal, with the body
    asked for, a strategy whose download fails after the status line: the
    producer ends with the same exception. *)
Lemma producer_extends_strategy_witness :
  stream_exn (build_output_stream_for_message 102400 1
                Samples.interrupted_streams
                Demo.plain_args Demo.tty_env Demo.response true true)
  = Some (IOError None).
Proof.
  exact (proj1 (producer_extends_strategy 102400 1
                  Samples.interrupted_streams
                  Demo.plain_args Demo.tty_env Demo.response true true)).
Defined.

(** * Further properties of the entry points *)

Lemma plain_ops_no_text :
  forall buf flush cs h t,
    ~ In (Write h (Text t)) (flat_map (chunk_ops buf flush) cs).
Proof.
  intros buf flush cs h t Hin. apply in_flat_map in Hin.
  destruct Hin as (c & _ & Hc). unfold chunk_ops in Hc.
  destruct Hc as [Hc|Hc]; [discriminate|].
  destruct flush; cbn in Hc; [destruct Hc as [Hc|[]]; discriminate|].
  destruct Hc.
Qed.

Lemma initial_segment_In :
  forall A (d l : list A) x, initial_segment d l -> In x d -> In x l.
Proof.
  intros A d l x [rest ->] H. apply in_or_app. now left.
Qed.

Lemma try_write_frame :
  forall env args write w d,
    fst (write w) = log w d ->
    let r := try_write env args write w in
    let newline :=
      match snd r with
      | SuppressedBrokenPipe => [newline_on_stderr]
      | _ => []
      end in
    stdout_ops (fst r)
    = stdout_ops w ++ d ++ (if stdout_is_stderr env then newline else [])
    /\ stderr_ops (fst r)
       = stderr_ops w ++ (if stdout_is_stderr env then [] else newline)
    /\ (snd r = SuppressedBrokenPipe ->
        debug args = false /\ traceback args = false
        /\ file_fault (stderr_file env) (stderr_log env (log w d))
             newline_on_stderr = None)
    /\ (forall e, snd r = Failed e ->
        snd (write w) = Raise e
        \/ (snd (write w) = Raise (IOError (Some EPIPE))
            /\ debug args = false /\ traceback args = false
            /\ file_fault (stderr_file env) (stderr_log env (log w d))
                 newline_on_stderr = Some e))
    /\ (snd (write w) = Raise (IOError (Some EPIPE)) ->
        snd r = Failed (IOError (Some EPIPE)) ->
        debug args = true \/ traceback args = true
        \/ file_fault (stderr_file env) (stderr_log env (log w d))
             newline_on_stderr = Some (IOError (Some EPIPE))).
Proof.
  intros env args write w d Hd r newline. subst newline r. unfold try_write.
  destruct (write w) as [w1 [u|e]]; cbn [fst snd] in *; subst w1.
  - cbn. destruct (stdout_is_stderr env); rewrite ?app_nil_r;
      repeat split; try discriminate.
  - assert (Hplain :
      forall e0,
        let r := (log w d, Failed e0) in
        (e0 = e) ->
        stdout_ops (fst r)
        = stdout_ops w ++ d ++ (if stdout_is_stderr env then [] else [])
        /\ stderr_ops (fst r)
           = stderr_ops w ++ (if stdout_is_stderr env then [] else [])).
    { intros e0 r0 _. subst r0. cbn.
      destruct (stdout_is_stderr env); now rewrite !app_nil_r. }
    destruct e as [errno| | |];
      try (destruct (Hplain _ eq_refl) as [H1 H2]; cbn [fst snd];
           split; [exact H1|]; split; [exact H2|];
           repeat split; try discriminate;
           intros e0 [= <-]; now left).
    destruct (negb (debug args || traceback args) && errno_is_EPIPE errno)
      eqn:Hsw.
    + apply andb_true_iff in Hsw. destruct Hsw as [Hdiag He].
      apply errno_is_EPIPE_spec in He. subst errno.
      apply negb_true_iff, orb_false_iff in Hdiag.
      destruct Hdiag as [Hdbg Htb].
      destruct (file_fault (stderr_file env) (stderr_log env (log w d))
                  newline_on_stderr) as [e1|] eqn:Hnl.
      * rewrite (stderr_write_raises env _ e1 Hnl). cbn [fst snd].
        destruct (Hplain (IOError (Some EPIPE)) eq_refl) as [H1 H2].
        split; [exact H1|]. split; [exact H2|].
        repeat split; try discriminate.
        -- intros e0 [= <-]. right. auto.
        -- intros _ [= ->]. now right; right.
      * rewrite (stderr_write_returns env _ Hnl). cbn [fst snd].
        unfold with_newline.
        destruct (stdout_is_stderr env); cbn;
          rewrite ?app_nil_r, <- ?app_assoc;
          repeat split; auto; discriminate.
    + destruct (Hplain (IOError errno) eq_refl) as [H1 H2]. cbn [fst snd].
      split; [exact H1|]. split; [exact H2|].
      repeat split; try discriminate.
      * intros e0 [= <-]. now left.
      * intros [= ->] _.
        apply andb_false_iff in Hsw. destruct Hsw as [Hsw|Hsw].
        -- apply negb_false_iff, orb_true_iff in Hsw. tauto.
        -- discriminate Hsw.
Qed.

(** X7: what the entry points can do to the two sinks.  Whatever the inputs,
    [write_message] and [write_message_json] only add calls: those of the
    writer go to [env.stdout], and [env.stderr] (the same object as
    [env.stdout] with [--download], a separate one otherwise) gets one
    newline after them when the outcome is [SuppressedBrokenPipe] and nothing
    otherwise.  A broken pipe is swallowed only with [--debug] and
    [--traceback] both off and an [env.stderr] that took the newline; an
    exception that gets out is the one the write raised, or the one
    [env.stderr] raised on the newline of the handler.  The text layer of
    [env.stdout] is written to by the writer only in [write_message] on
    Windows with ['colors'] among the prettify groups, and never in
    [write_message_json]. *)
Theorem entry_points_effects :
  forall CHUNK_SIZE CHUNK_SIZE_BY_LINE stream_class_call env args w,
    (forall requests_message with_headers with_body,
        let r :=
          write_message CHUNK_SIZE CHUNK_SIZE_BY_LINE stream_class_call
            requests_message env args with_headers with_body w in
        let newline :=
          match snd r with
          | SuppressedBrokenPipe => [newline_on_stderr]
          | _ => []
          end in
        exists d,
          stdout_ops (fst r)
          = stdout_ops w ++ d ++ (if stdout_is_stderr env then newline else [])
          /\ stderr_ops (fst r)
             = stderr_ops w ++ (if stdout_is_stderr env then [] else newline)
          /\ (snd r = SuppressedBrokenPipe ->
              debug args = false /\ traceback args = false
              /\ file_fault (stderr_file env) (stderr_log env (log w d))
                   newline_on_stderr = None)
          /\ (snd r = Failed (IOError (Some EPIPE)) ->
              debug args = true \/ traceback args = true
              \/ file_fault (stderr_file env) (stderr_log env (log w d))
                   newline_on_stderr <> None)
          /\ (forall h t, In (Write h (Text t)) d ->
              is_windows env = true
              /\ str_in "colors" (prettify args) = true))
    /\ (forall requests_message with_headers_req with_body_req
               with_headers_res with_body_res,
          let r :=
            write_message_json
              CHUNK_SIZE CHUNK_SIZE_BY_LINE stream_class_call
              requests_message env args
              with_headers_req with_body_req with_headers_res with_body_res
              w in
          let newline :=
            match snd r with
            | SuppressedBrokenPipe => [newline_on_stderr]
            | _ => []
            end in
          exists d,
            stdout_ops (fst r)
            = stdout_ops w ++ d
              ++ (if stdout_is_stderr env then newline else [])
            /\ stderr_ops (fst r)
               = stderr_ops w
                 ++ (if stdout_is_stderr env then [] else newline)
            /\ (snd r = SuppressedBrokenPipe ->
                debug args = false /\ traceback args = false
                /\ file_fault (stderr_file env) (stderr_log env (log w d))
                     newline_on_stderr = None)
            /\ (snd r = Failed (IOError (Some EPIPE)) ->
                debug args = true \/ traceback args = true
                \/ file_fault (stderr_file env) (stderr_log env (log w d))
                     newline_on_stderr <> None)
            /\ (forall h t, ~ In (Write h (Text t)) d)).
Proof.
  assert (Hfailed :
    forall env args write w d,
      fst (write w) = log w d ->
      snd (try_write env args write w) = Failed (IOError (Some EPIPE)) ->
      debug args = true \/ traceback args = true
      \/ file_fault (stderr_file env) (stderr_log env (log w d))
           newline_on_stderr <> None).
  { intros env args write w d Hd Hr.
    destruct (try_write_frame env args write w d Hd)
      as (_ & _ & _ & Hf & Hpipe).
    destruct (Hf _ Hr) as [Hw | (_ & _ & _ & Hnl)].
    - destruct (Hpipe Hw Hr) as [H|[H|H]]; auto.
      right. right. rewrite H. discriminate.
    - right. right. rewrite Hnl. discriminate. }
  assert (Hnothing :
    forall env w,
      let r := (w, Completed) in
      exists d : list sink_op,
        stdout_ops (fst r)
        = stdout_ops w ++ d ++ (if stdout_is_stderr env then [] else [])
        /\ stderr_ops (fst r)
           = stderr_ops w ++ (if stdout_is_stderr env then [] else [])
        /\ d = []).
  { intros env w r. exists []. subst r. cbn.
    destruct (stdout_is_stderr env); now rewrite !app_nil_r. }
  intros CS CSL call env args w. split.
  - intros msg wh wb r newline. subst newline r. unfold write_message.
    destruct (negb (wb || wh)).
    + destruct (Hnothing env w) as (d & H1 & H2 & ->). exists [].
      cbn [fst snd] in *. split; [exact H1|]. split; [exact H2|].
      repeat split; try discriminate; try contradiction.
    + set (s := build_output_stream_for_message CS CSL call args env msg wh wb).
      set (fl := stdout_isatty env || stream args).
      destruct (is_windows env && str_in "colors" (prettify args)) eqn:Hc.
      * destruct (write_stream_with_colors_win_py3_trace s (stdout env) fl w)
          as (d & Hd & _ & _).
        exists d.
        destruct (try_write_frame env args _ w d Hd)
          as (H1 & H2 & H3 & _ & _).
        split; [exact H1|]. split; [exact H2|]. split; [exact H3|].
        split; [now apply Hfailed|].
        intros h t _. now apply andb_true_iff in Hc.
      * destruct (write_stream_trace s (stdout env) fl w)
          as (d & Hd & Hseg & _).
        exists d.
        destruct (try_write_frame env args _ w d Hd)
          as (H1 & H2 & H3 & _ & _).
        split; [exact H1|]. split; [exact H2|]. split; [exact H3|].
        split; [now apply Hfailed|].
        intros h t Hin. exfalso.
        eapply plain_ops_no_text. eapply initial_segment_In; eauto.
  - intros msgs hq bq hs bs r newline. subst newline r.
    unfold write_message_json.
    destruct (negb (bq || hq || bs || hs)).
    + destruct (Hnothing env w) as (d & H1 & H2 & ->). exists [].
      cbn [fst snd] in *. split; [exact H1|]. split; [exact H2|].
      repeat split; try discriminate.
      intros h t [].
    + set (s := build_output_stream_for_message_json CS CSL call args env
                  msgs hq bq hs bs).
      set (fl := stdout_isatty env || stream args).
      destruct (write_stream_trace s (stdout env) fl w)
        as (d & Hd & Hseg & _).
      exists d.
      destruct (try_write_frame env args
                  (write_stream_json s (stdout env) fl) w d Hd)
        as (H1 & H2 & H3 & _ & _).
      split; [exact H1|]. split; [exact H2|]. split; [exact H3|].
      split; [now apply (Hfailed env args
                           (write_stream_json s (stdout env) fl))|].
      intros h t Hin. eapply plain_ops_no_text.
      eapply initial_segment_In; eauto.
Qed.

Lemma try_write_other :
  forall env args write w w1 e,
    write w = (w1, Raise e) -> (forall errno, e <> IOError errno) ->
    try_write env args write w = (w1, Failed e).
Proof.
  intros env args write w w1 e Hw He. unfold try_write. rewrite Hw.
  destruct e as [errno| | |]; try reflexivity.
  now destruct (He errno).
Qed.

(** X8: only [IOError] is handled.  Any other exception out of the write
    ([TypeError], [AttributeError], [UnicodeDecodeError]) gets out of
    [write_message] and of [write_message_json] whatever [--debug] and
    [--traceback] say, and nothing is written to [env.stderr]. *)
Theorem other_exceptions_get_out :
  forall CHUNK_SIZE CHUNK_SIZE_BY_LINE stream_class_call env args w w1 e,
    (forall errno, e <> IOError errno) ->
    (forall requests_message with_headers with_body,
        with_body || with_headers = true ->
        (if is_windows env && str_in "colors" (prettify args)
         then write_stream_with_colors_win_py3
         else write_stream)
          (build_output_stream_for_message
             CHUNK_SIZE CHUNK_SIZE_BY_LINE stream_class_call
             args env requests_message with_headers with_body)
          (stdout env) (stdout_isatty env || stream args) w
        = (w1, Raise e) ->
        write_message CHUNK_SIZE CHUNK_SIZE_BY_LINE stream_class_call
          requests_message env args with_headers with_body w
        = (w1, Failed e)
        /\ stderr_ops w1 = stderr_ops w)
    /\ (forall requests_message with_headers_req with_body_req
               with_headers_res with_body_res,
          with_body_req || with_headers_req
          || with_body_res || with_headers_res = true ->
          write_stream_json
            (build_output_stream_for_message_json
               CHUNK_SIZE CHUNK_SIZE_BY_LINE stream_class_call
               args env requests_message
               with_headers_req with_body_req with_headers_res with_body_res)
            (stdout env) (stdout_isatty env || stream args) w
          = (w1, Raise e) ->
          write_message_json CHUNK_SIZE CHUNK_SIZE_BY_LINE stream_class_call
            requests_message env args
            with_headers_req with_body_req with_headers_res with_body_res w
          = (w1, Failed e)
          /\ stderr_ops w1 = stderr_ops w).
Proof.
  intros CS CSL call env args w w1 e He. split.
  - intros msg wh wb Hreq Hw. unfold write_message. rewrite Hreq.
    cbn [negb]. split.
    + apply try_write_other; [|exact He].
      destruct (is_windows env && str_in "colors" (prettify args)); exact Hw.
    + destruct (is_windows env && str_in "colors" (prettify args)).
      * pose proof (write_stream_with_colors_win_py3_stderr
                      (build_output_stream_for_message CS CSL call args env
                         msg wh wb)
                      (stdout env) (stdout_isatty env || stream args) w) as H.
        now rewrite Hw in H.
      * pose proof (write_stream_stderr
                      (build_output_stream_for_message CS CSL call args env
                         msg wh wb)
                      (stdout env) (stdout_isatty env || stream args) w) as H.
        now rewrite Hw in H.
  - intros msgs hq bq hs bs Hreq Hw. unfold write_message_json.
    rewrite Hreq. cbn [negb]. split.
    + apply try_write_other; [exact Hw | exact He].
    + pose proof (write_stream_stderr
                    (build_output_stream_for_message_json CS CSL call args
                       env msgs hq bq hs bs)
                    (stdout env) (stdout_isatty env || stream args) w) as H.
      change write_stream with write_stream_json in H.
      now rewrite Hw in H.
Qed.

(** Witness of [other_exceptions_get_out]: on a Windows console that declares
    ASCII, an accented colourised chunk ends [write_message] with
    [UnicodeDecodeError] after the first chunk, with [--traceback] off. *)
Lemma other_exceptions_get_out_witness :
  write_message 102400 1 Samples.accented_streams Demo.response
    Samples.ascii_windows_env Demo.colors_args true true Demo.empty_world
  = (log Demo.empty_world [Write Buffer (Bytes Demo.plain_chunk); Flush],
     Failed UnicodeDecodeError).
Proof.
  apply (proj1 (other_exceptions_get_out 102400 1 Samples.accented_streams
                  Samples.ascii_windows_env Demo.colors_args
                  Demo.empty_world
                  (log Demo.empty_world
                     [Write Buffer (Bytes Demo.plain_chunk); Flush])
                  UnicodeDecodeError
                  (fun errno H => eq_ind UnicodeDecodeError
                     (fun x => match x with
                               | UnicodeDecodeError => True
                               | _ => False
                               end) I _ H))
           Demo.response true true eq_refl eq_refl).
Defined.

Lemma concat_snoc :
  forall (cs : list bytes) (tail : list bytes),
    List.concat (cs ++ tail) = List.concat cs ++ List.concat tail.
Proof.
  intros cs tail. apply concat_app.
Qed.

Lemma produced_when_strategy_ends :
  forall CS CSL call args env msg wh wb,
    stream_exn
      (call (fst (get_stream_type_and_kwargs CS CSL env args))
         (SingleArgs (message_classes msg (raw msg)) wh wb)
         (snd (get_stream_type_and_kwargs CS CSL env args))) = None ->
    build_output_stream_for_message CS CSL call args env msg wh wb
    = {| chunks :=
           chunks
             (call (fst (get_stream_type_and_kwargs CS CSL env args))
                (SingleArgs (message_classes msg (raw msg)) wh wb)
                (snd (get_stream_type_and_kwargs CS CSL env args)))
           ++ (if wants_separator env msg wb
               then [MESSAGE_SEPARATOR_BYTES] else []);
         stream_exn := None |}.
Proof.
  intros CS CSL call args env msg wh wb Hs.
  unfold build_output_stream_for_message, wants_separator in *.
  destruct (get_stream_type_and_kwargs CS CSL env args) as [cls kw].
  cbn [fst snd] in *. unfold yield_from_then. now rewrite Hs.
Qed.

(** X9: [write_message] from end to end, when it writes through the plain
    writer (anywhere but on Windows with ['colors'] among the prettify
    groups), on a sink that raises nothing and with a strategy that runs to
    its end.  It returns [Completed]; the bytes on the wire are the
    strategy's chunks, in order, followed by two newlines exactly when the
    output is a terminal, the body is asked for and the message is not an
    upload chunk; there is one write per chunk, and each is followed by a
    flush when the output is a terminal or [--stream] is on, none
    otherwise. *)
Theorem write_message_end_to_end :
  forall CHUNK_SIZE CHUNK_SIZE_BY_LINE stream_class_call
         requests_message env args with_headers with_body w,
    let selected :=
      get_stream_type_and_kwargs CHUNK_SIZE CHUNK_SIZE_BY_LINE env args in
    let strategy :=
      stream_class_call (fst selected)
        (SingleArgs (message_classes requests_message (raw requests_message))
                    with_headers with_body)
        (snd selected) in
    let tail :=
      if wants_separator env requests_message with_body
      then [MESSAGE_SEPARATOR_BYTES] else [] in
    let flush := stdout_isatty env || stream args in
    with_body || with_headers = true ->
    reliable (stdout env) ->
    stream_exn strategy = None ->
    is_windows env && str_in "colors" (prettify args) = false ->
    exists ops,
      write_message CHUNK_SIZE CHUNK_SIZE_BY_LINE stream_class_call
        requests_message env args with_headers with_body w
      = (log w ops, Completed)
      /\ ops = flat_map (chunk_ops (resolve_buf (stdout env)) flush)
                 (chunks strategy ++ tail)
      /\ wire_bytes (file_encoding (stdout env)) ops
         = Some (List.concat (chunks strategy) ++ List.concat tail)
      /\ count_write ops = List.length (chunks strategy) + List.length tail
      /\ count_flush ops = (if flush then count_write ops else 0).
Proof.
  intros CS CSL call msg env args wh wb w selected strategy tail flush
         Hreq Hf Hs Hcol.
  pose proof (produced_when_strategy_ends CS CSL call args env msg wh wb Hs)
    as Hp.
  fold selected in Hp. fold strategy in Hp. fold tail in Hp.
  unfold write_message. rewrite Hreq. cbn [negb]. rewrite Hp, Hcol.
  fold flush.
  exists (flat_map (chunk_ops (resolve_buf (stdout env)) flush)
            (chunks strategy ++ tail)).
  split; [|split; [|split; [|split]]].
  - apply try_write_returned.
    unfold write_stream.
    rewrite (for_in_run (plain_body (stdout env) flush)
               (chunk_ops (resolve_buf (stdout env)) flush));
      [reflexivity|].
    intros c _ w0. now apply plain_body_run.
  - reflexivity.
  - now rewrite wire_bytes_plain, concat_snoc.
  - rewrite count_write_plain. apply length_app.
  - now rewrite count_flush_plain, count_write_plain.
Qed.

(** Witness of [write_message_end_to_end]: a response on a terminal. *)
Lemma write_message_end_to_end_witness :
  exists ops,
    write_message 102400 1 Demo.streams Demo.response Demo.tty_env
      Demo.plain_args true true Demo.empty_world
    = (log Demo.empty_world ops, Completed)
    /\ wire_bytes Demo.latin_1 ops
       = Some (Demo.status_line ++ Demo.hello ++ [x0a; x0a])
    /\ count_write ops = 3
    /\ count_flush ops = 3.
Proof.
  destruct (write_message_end_to_end 102400 1 Demo.streams Demo.response
              Demo.tty_env Demo.plain_args true true Demo.empty_world
              eq_refl (fun done op => eq_refl) eq_refl eq_refl)
    as (ops & Hrun & _ & Hwire & Hw & Hfl).
  exists ops. rewrite Hfl, Hw. repeat split; assumption.
Defined.

(** X10: [write_message_json] from end to end, on a sink that raises nothing
    and with a strategy that runs to its end: it returns [Completed], the
    bytes on the wire are exactly the strategy's chunks, in order, with
    nothing after them even on a terminal, one byte-layer write per chunk,
    each followed by a flush when the output is a terminal or [--stream] is
    on. *)
Theorem write_message_json_end_to_end :
  forall CHUNK_SIZE CHUNK_SIZE_BY_LINE stream_class_call
         requests_message env args
         with_headers_req with_body_req with_headers_res with_body_res w,
    let selected :=
      get_stream_type_and_kwargs CHUNK_SIZE CHUNK_SIZE_BY_LINE env args in
    let strategy :=
      stream_class_call (fst selected)
        (DualArgs
           (message_classes_json (fst requests_message)
              (raw (fst requests_message)))
           (message_classes_json (snd requests_message)
              (raw (snd requests_message)))
           with_headers_req with_body_req with_headers_res with_body_res)
        (snd selected) in
    let flush := stdout_isatty env || stream args in
    with_body_req || with_headers_req
    || with_body_res || with_headers_res = true ->
    reliable (stdout env) ->
    stream_exn strategy = None ->
    write_message_json CHUNK_SIZE CHUNK_SIZE_BY_LINE stream_class_call
      requests_message env args
      with_headers_req with_body_req with_headers_res with_body_res w
    = (log w (flat_map (chunk_ops (resolve_buf (stdout env)) flush)
                (chunks strategy)), Completed)
    /\ wire_bytes (file_encoding (stdout env))
         (flat_map (chunk_ops (resolve_buf (stdout env)) flush)
            (chunks strategy))
       = Some (List.concat (chunks strategy))
    /\ count_flush (flat_map (chunk_ops (resolve_buf (stdout env)) flush)
                      (chunks strategy))
       = (if flush then List.length (chunks strategy) else 0).
Proof.
  intros CS CSL call msgs env args hq bq hs bs w selected strategy flush
         Hreq Hf Hs.
  split; [|split].
  - unfold write_message_json. rewrite Hreq. cbn [negb].
    apply try_write_returned.
    assert (Hp : build_output_stream_for_message_json CS CSL call args env
                   msgs hq bq hs bs = strategy).
    { subst strategy selected. unfold build_output_stream_for_message_json.
      destruct (get_stream_type_and_kwargs CS CSL env args).
      apply yield_from_then_nil. }
    rewrite Hp. fold flush. unfold write_stream_json.
    rewrite (for_in_run (plain_body (stdout env) flush)
               (chunk_ops (resolve_buf (stdout env)) flush)).
    + now rewrite Hs.
    + intros c _ w0. now apply plain_body_run.
  - apply wire_bytes_plain.
  - apply count_flush_plain.
Qed.

(** Witness of [write_message_json_end_to_end]: a request and its response in
    the JSON form on a terminal. *)
Lemma write_message_json_end_to_end_witness :
  write_message_json 102400 1 Demo.streams (Demo.request, Demo.response)
    Demo.tty_env Demo.json_args false false true true Demo.empty_world
  = (log Demo.empty_world
       [Write Buffer (Bytes Demo.status_line); Flush;
        Write Buffer (Bytes Demo.hello); Flush], Completed).
Proof.
  exact (proj1 (write_message_json_end_to_end 102400 1 Demo.streams
                  (Demo.request, Demo.response) Demo.tty_env Demo.json_args
                  false false true true Demo.empty_world
                  eq_refl (fun done op => eq_refl) eq_refl)).
Defined.

(** * Where an exception of the plain writers comes from *)

Lemma plain_body_cases :
  forall f flush c w,
    plain_body f flush c w
    = (log w (chunk_ops (resolve_buf f) flush c), Ok tt)
    \/ exists d op rest e,
         plain_body f flush c w = (log w d, Raise e)
         /\ chunk_ops (resolve_buf f) flush c = d ++ op :: rest
         /\ file_fault f (stdout_ops w ++ d) op = Some e.
Proof.
  intros f flush c w. unfold plain_body, chunk_ops, bind, call_stdout.
  destruct (file_fault f (stdout_ops w)
              (Write (resolve_buf f) (Bytes c))) as [e|] eqn:Hw.
  - right. exists [], (Write (resolve_buf f) (Bytes c)),
             (if flush then [Flush] else []), e.
    rewrite log_nil, app_nil_r. auto.
  - fold (log w [Write (resolve_buf f) (Bytes c)]).
    destruct flush; cbn [when].
    + destruct (file_fault f
                  (stdout_ops (log w [Write (resolve_buf f) (Bytes c)]))
                  Flush) as [e|] eqn:Hfl.
      * right. exists [Write (resolve_buf f) (Bytes c)], Flush, [], e.
        auto.
      * left.
        fold (log (log w [Write (resolve_buf f) (Bytes c)]) [Flush]).
        now rewrite log_log.
    + now left.
Qed.

Lemma plain_for_each_cases :
  forall f flush cs w,
    for_each (plain_body f flush) cs w
    = (log w (flat_map (chunk_ops (resolve_buf f) flush) cs), Ok tt)
    \/ exists d op rest e,
         for_each (plain_body f flush) cs w = (log w d, Raise e)
         /\ flat_map (chunk_ops (resolve_buf f) flush) cs = d ++ op :: rest
         /\ file_fault f (stdout_ops w ++ d) op = Some e.
Proof.
  intros f flush cs. induction cs as [|c cs IH]; intros w.
  - left. cbn. now rewrite log_nil.
  - cbn [for_each flat_map].
    destruct (plain_body_cases f flush c w)
      as [Hok | (d & op & rest & e & Hr & Hops & Hfault)].
    + rewrite (bind_returned _ _ _ _ _ Hok).
      destruct (IH (log w (chunk_ops (resolve_buf f) flush c)))
        as [Hok2 | (d & op & rest & e & Hr & Hops & Hfault)].
      * left. now rewrite Hok2, log_log.
      * right.
        exists (chunk_ops (resolve_buf f) flush c ++ d), op, rest, e.
        rewrite Hr, log_log, Hops. repeat split.
        -- now rewrite app_assoc.
        -- cbn [log stdout_ops] in Hfault. now rewrite app_assoc.
    + right. rewrite (bind_raised _ _ _ _ _ _ Hr).
      exists d, op, (rest ++ flat_map (chunk_ops (resolve_buf f) flush) cs), e.
      repeat split; auto. rewrite Hops, <- app_assoc. reflexivity.
Qed.

(** X11: the plain writers raise nothing of their own.  When [write_stream]
    or [write_stream_json] raises [e], either the file raised [e] on the next
    call due, and everything due before that call is on the sink and nothing
    after it; or every chunk is on the sink and [e] is what the stream itself
    raised at its end. *)
Theorem plain_writer_exception_origin :
  forall writer, In writer [write_stream; write_stream_json] ->
  forall s f flush w w1 e,
    writer s f flush w = (w1, Raise e) ->
    let expected := flat_map (chunk_ops (resolve_buf f) flush) (chunks s) in
    (exists d op rest,
        w1 = log w d /\ expected = d ++ op :: rest
        /\ file_fault f (stdout_ops w ++ d) op = Some e)
    \/ (w1 = log w expected /\ stream_exn s = Some e).
Proof.
  intros writer Hin s f flush w w1 e Hw expected.
  assert (Hw' : for_in s (plain_body f flush) w = (w1, Raise e)).
  { destruct Hin as [<-|[<-|[]]]; exact Hw. }
  clear Hw Hin. unfold for_in in Hw'.
  destruct (plain_for_each_cases f flush (chunks s) w)
    as [Hok | (d & op & rest & e0 & Hr & Hops & Hfault)].
  - rewrite (bind_returned _ _ _ _ _ Hok) in Hw'. right.
    destruct (stream_exn s) as [e1|]; [|discriminate Hw'].
    unfold raise in Hw'. injection Hw' as <- <-. now split.
  - rewrite (bind_raised _ _ _ _ _ _ Hr) in Hw'. left.
    injection Hw' as <- <-. now exists d, op, rest.
Qed.

(** Witness of [plain_writer_exception_origin]: a pipe that breaks after the
    first call raises on the flush of the first chunk. *)
Lemma plain_writer_exception_origin_witness :
  (exists d op rest,
      log Demo.empty_world [Write Buffer (Bytes Demo.hello)]
      = log Demo.empty_world d
      /\ [Write Buffer (Bytes Demo.hello); Flush;
          Write Buffer (Bytes Demo.plain_chunk); Flush] = d ++ op :: rest
      /\ file_fault (Demo.closing_pipe 1)
           (stdout_ops Demo.empty_world ++ d) op
         = Some (IOError (Some EPIPE)))
  \/ (log Demo.empty_world [Write Buffer (Bytes Demo.hello)]
      = log Demo.empty_world
          [Write Buffer (Bytes Demo.hello); Flush;
           Write Buffer (Bytes Demo.plain_chunk); Flush]
      /\ @None exn = Some (IOError (Some EPIPE))).
Proof.
  exact (plain_writer_exception_origin write_stream (or_introl eq_refl)
           {| chunks := [Demo.hello; Demo.plain_chunk]; stream_exn := None |}
           (Demo.closing_pipe 1) true Demo.empty_world
           (log Demo.empty_world [Write Buffer (Bytes Demo.hello)])
           (IOError (Some EPIPE)) eq_refl).
Defined.
